(** * Teleport auth server ([lib/auth/auth.go]): join tokens, certificates
      and web sessions

    A shallow embedding of [AuthServer] and its methods.  The server is a
    record of the state of its collaborators (the directory services, the
    signing backend, the clock and the random source); every method is a
    function from that state to a result and a new state, written in a
    small state-and-error monad, one line of Rocq per statement of Go.

    What lives outside [auth.go] is either taken as a parameter (the
    capability interfaces [Authority] and [Clock], and the helper functions
    collected in [Helpers]) or modelled from the specification (the
    directory services, as finite maps). *)

From Stdlib Require Import ZArith NArith List Ascii String Lia.
From Stdlib.Strings Require Import Byte.
From stdpp Require Import base option list gmap strings.

Local Open Scope Z_scope.
Local Open Scope string_scope.

(** ** Go base types *)

(** A Go [[]byte]; the nil slice and the empty slice are both [[]]. *)
Abbreviation bytes := (list Byte.byte).

(** [time.Duration]: a count of nanoseconds. *)
Abbreviation Duration := Z (only parsing).

Definition Nanosecond : Duration := 1.
Definition Microsecond : Duration := 1000 * Nanosecond.
Definition Millisecond : Duration := 1000 * Microsecond.
Definition Second : Duration := 1000 * Millisecond.
Definition Minute : Duration := 60 * Second.

(** [time.Time]: an instant (nanoseconds since the epoch) shown in a
    location.  [UTC] keeps the instant and changes the location, [Add]
    moves the instant. *)
Inductive Location :=
| UTCLocation
| NamedLocation (name : string).

Record Time := mkTime { unixNano : Z; location : Location }.

Definition Time_UTC (t : Time) : Time :=
  {| unixNano := unixNano t; location := UTCLocation |}.

Definition Time_Add (t : Time) (d : Duration) : Time :=
  {| unixNano := unixNano t + d; location := location t |}.

(** ** Errors *)

(** The error kinds of package [teleport] and [trace.Errorf]; [External]
    stands for a failure reported by a collaborator. *)
Inductive Error :=
| BadParameter (param msg : string)
| NotFound (msg : string)
| AccessDenied (msg : string)
| Errorf (msg : string)
| External (msg : string).

Inductive Result (A : Type) :=
| Ok (a : A)
| Err (e : Error).
Arguments Ok {A} a.
Arguments Err {A} e.

(** [trace.Wrap] records the call site in an error and keeps its kind and
    its message; the model has no call sites, so a wrapped error is the
    error itself. *)
Definition trace_Wrap (e : Error) : Error := e.

Definition IsNotFound (e : Error) : bool :=
  match e with NotFound _ => true | _ => false end.

Definition isOk {A} (r : Result A) : bool :=
  match r with Ok _ => true | Err _ => false end.

(** ** The state-and-error monad *)

Definition M (St A : Type) : Type := St -> Result A * St.

Definition ret {St A} (a : A) : M St A := fun s => (Ok a, s).

Definition fail {St A} (e : Error) : M St A := fun s => (Err e, s).

Definition bind {St A B} (m : M St A) (k : A -> M St B) : M St B :=
  fun s =>
    match m s with
    | (Ok a, s') => k a s'
    | (Err e, s') => (Err e, s')
    end.

(** [if err != nil { return ..., trace.Wrap(err) }] *)
Definition wrap {St A} (m : M St A) : M St A :=
  fun s =>
    match m s with
    | (Ok a, s') => (Ok a, s')
    | (Err e, s') => (Err (trace_Wrap e), s')
    end.

(** A read of the state that may fail. *)
Definition reads {St A} (f : St -> Result A) : M St A := fun s => (f s, s).

Definition gets {St A} (f : St -> A) : M St A := fun s => (Ok (f s), s).

Declare Scope auth_scope.
Delimit Scope auth_scope with auth.
Notation "x <- m ;; k" := (bind m (fun x => k))
  (at level 100, m at next level, right associativity) : auth_scope.
Notation "m ;;; k" := (bind m (fun _ => k))
  (at level 100, right associativity) : auth_scope.
Local Open Scope auth_scope.

(** ** Package [services]: the records the server stores *)

(** [teleport.Role] is a string type. *)
Abbreviation Role := string (only parsing).

Record ProvisionToken := mkProvisionToken {
  tok_DomainName : string;
  tok_Role : string }.

Inductive CertAuthType := HostCA | UserCA.

Record CertAuthID := mkCertAuthID {
  id_Type : CertAuthType;
  id_DomainName : string }.

Record CertAuthority := mkCertAuthority {
  ca_Type : CertAuthType;
  ca_DomainName : string;
  ca_CheckingKeys : list bytes;
  ca_SigningKeys : list bytes }.

Record User := mkUser {
  user_Name : string;
  user_AllowedLogins : list string }.

Record WebSession := mkWebSession {
  Priv : bytes;
  Pub : bytes;
  Expires : Time;
  BearerToken : string }.

(** [encryptor.Key] *)
Record Key := mkKey {
  key_ID : string;
  key_Name : string;
  key_PrivateValue : bytes;
  key_PublicValue : bytes }.

(** Modelled from the spec: [Key.Public] is missing from the sources; it
    "returns only its public half". *)
Definition Key_Public (k : Key) : Key :=
  {| key_ID := key_ID k; key_Name := key_Name k;
     key_PrivateValue := []; key_PublicValue := key_PublicValue k |}.

Global Instance CertAuthType_eq_dec : EqDecision CertAuthType.
Proof. solve_decision. Defined.

Global Instance CertAuthType_countable : Countable CertAuthType.
Proof.
  refine (inj_countable'
            (fun t => match t with HostCA => false | UserCA => true end)
            (fun b => if b then UserCA else HostCA) _).
  intros []; reflexivity.
Defined.

(** ** Package [services]: the directory services

    The services are thin layers over the replicated backend; none of them
    is part of [auth.go].  Each is modelled as the finite map it keeps. *)

(** Modelled from the spec: the provisioning store is missing from the
    sources; it "persists {token, nodeName, role, ttl} keyed by the raw
    token", [getToken(raw)] returns the record and a missing token is a
    NotFound error, [deleteToken(raw)] removes the record.  The spec names
    no failure of a write, and the model has none: what is proved of a
    method that fails is stated for the steps before its write. *)
Abbreviation services_ProvisioningService :=
  (gmap string (ProvisionToken * Duration)).

Definition services_UpsertToken (token domainName role : string) (ttl : Duration)
    (st : services_ProvisioningService) : Result unit * services_ProvisioningService :=
  (Ok tt, <[token := ({| tok_DomainName := domainName; tok_Role := role |}, ttl)]> st).

Definition services_GetToken (token : string)
    (st : services_ProvisioningService) : Result ProvisionToken :=
  match st !! token with
  | Some (tok, _) => Ok tok
  | None => Err (NotFound "provisioning token not found")
  end.

Definition services_DeleteToken (token : string)
    (st : services_ProvisioningService) : Result unit * services_ProvisioningService :=
  match st !! token with
  | Some _ => (Ok tt, delete token st)
  | None => (Err (NotFound "provisioning token not found"), st)
  end.

(** Modelled from the spec: the CA store is missing from the sources;
    [getCertAuthority(id, loadSigningKeys)] returns the CA record of a
    (kind, domain) pair with its ordered list of signing keys, and a missing
    CA is a NotFound error. *)
Abbreviation services_CAService := (gmap (CertAuthType * string) CertAuthority).

Definition services_GetCertAuthority (id : CertAuthID) (loadSigningKeys : bool)
    (st : services_CAService) : Result CertAuthority :=
  match st !! (id_Type id, id_DomainName id) with
  | Some ca =>
      if loadSigningKeys then Ok ca
      else Ok {| ca_Type := ca_Type ca; ca_DomainName := ca_DomainName ca;
                 ca_CheckingKeys := ca_CheckingKeys ca; ca_SigningKeys := [] |}
  | None => Err (NotFound "certificate authority not found")
  end.

(** Modelled from the spec: [CertAuthority.FirstSigningKey] is missing from
    the sources: "Take the first signing key; if the CA has zero keys ->
    error no signing key available", a NotFound error. *)
Definition FirstSigningKey (ca : CertAuthority) : Result bytes :=
  match ca_SigningKeys ca with
  | [] => Err (NotFound "no signing key available")
  | k :: _ => Ok k
  end.

(** Modelled from the spec: the web-session store and the user directory
    are missing from the sources; sessions are kept under (user, session
    ID) and [upsertWebSession] "persists/overwrites the session", users are
    fetched by name.  As for the tokens, the model has no failing write. *)
Record services_WebService := mkWebService {
  web_sessions : gmap (string * string) (WebSession * Duration);
  web_users : gmap string User }.

Definition services_UpsertWebSession (user sid : string) (ws : WebSession)
    (ttl : Duration) (st : services_WebService) : Result unit * services_WebService :=
  (Ok tt, {| web_sessions := <[(user, sid) := (ws, ttl)]> (web_sessions st);
             web_users := web_users st |}).

Definition services_GetWebSession (user sid : string)
    (st : services_WebService) : Result WebSession :=
  match web_sessions st !! (user, sid) with
  | Some (ws, _) => Ok ws
  | None => Err (NotFound "web session not found")
  end.

Definition services_DeleteWebSession (user sid : string)
    (st : services_WebService) : Result unit * services_WebService :=
  match web_sessions st !! (user, sid) with
  | Some _ => (Ok tt, {| web_sessions := delete (user, sid) (web_sessions st);
                         web_users := web_users st |})
  | None => (Err (NotFound "web session not found"), st)
  end.

Definition services_GetUser (name : string) (st : services_WebService) : Result User :=
  match web_users st !! name with
  | Some u => Ok u
  | None => Err (NotFound "user not found")
  end.

(** Modelled from the spec: the key-management store is missing from the
    sources; [addSealKey(pub)] "stores the peer's public seal key in local
    key-management state", [getSignKey()] returns the local sign key, which
    may not have been set up. *)
Record services_BkKeysService := mkBkKeysService {
  bk_sealKeys : list Key;
  bk_signKey : option Key }.

Definition services_AddSealKey (k : Key)
    (st : services_BkKeysService) : Result unit * services_BkKeysService :=
  (Ok tt, {| bk_sealKeys := bk_sealKeys st ++ [k]; bk_signKey := bk_signKey st |}).

Definition services_GetSignKey (st : services_BkKeysService) : Result Key :=
  match bk_signKey st with
  | Some k => Ok k
  | None => Err (NotFound "sign key not found")
  end.

(** ** Package [utils]: the random source *)

Definition hex_digit (n : N) : ascii :=
  if (n <? 10)%N then ascii_of_N (48 + n) else ascii_of_N (87 + n).

Definition hex_of_byte (b : Byte.byte) : string :=
  let n := Byte.to_N b in
  String (hex_digit (n / 16)) (String (hex_digit (n mod 16)) EmptyString).

(** [hex.EncodeToString] *)
Fixpoint EncodeToString (bs : bytes) : string :=
  match bs with
  | [] => EmptyString
  | b :: rest => hex_of_byte b +:+ EncodeToString rest
  end.

(** Modelled from the spec: [utils.CryptoRandomHex] is missing from the
    sources; it is a "cryptographically secure random hex generator of a
    given byte length" whose failure is fatal to the call.  The entropy the
    process will read is a list of bytes; reading past its end fails. *)
Definition CryptoRandomHex (n : nat) (entropy : bytes) : Result string * bytes :=
  if (n <=? length entropy)%nat
  then (Ok (EncodeToString (take n entropy)), drop n entropy)
  else (Err (External "random source failed"), entropy).

(** ** The capabilities the server is built from *)

(** The calls the server can make to the signing backend, with their
    arguments. *)
Inductive AuthorityCall :=
| CallGenerateKeyPair (passphrase : string)
| CallGetNewKeyPairFromPool
| CallGenerateHostCert (pkey key : bytes) (hostname authDomain : string)
    (role : Role) (ttl : Duration)
| CallGenerateUserCert (pkey key : bytes) (username : string) (ttl : Duration).

(** [type Authority interface]: an implementation keeps a state of type
    [B]; key pairs are returned as (private key, public key). *)
Class Authority (B : Type) := {
  Authority_GenerateKeyPair : string -> B -> Result (bytes * bytes) * B;
  Authority_GetNewKeyPairFromPool : B -> Result (bytes * bytes) * B;
  Authority_GenerateHostCert :
    bytes -> bytes -> string -> string -> Role -> Duration -> B -> Result bytes * B;
  Authority_GenerateUserCert :
    bytes -> bytes -> string -> Duration -> B -> Result bytes * B }.

(** [clockwork.Clock] *)
Class Clock (C : Type) := {
  Now : C -> Time * C }.

(** Functions of other packages that [auth.go] calls and whose code is not
    part of the sources: [cstrings.IsValidDomainName], [teleport.Role.Check]
    and the constant [teleport.RoleAuth], [services.JoinTokenRole] and
    [services.SplitTokenRole] (token and role, or an error), and the
    password check of the web service. *)
Class Helpers := {
  IsValidDomainName : string -> bool;
  Role_Check : Role -> Result unit;
  RoleAuth : Role;
  JoinTokenRole : string -> string -> Result string;
  SplitTokenRole : string -> Result (string * string);
  CheckPasswordWOToken : string -> bytes -> services_WebService -> Result unit }.

(** ** Package [auth] *)

(** [type Session struct] *)
Record Session := mkSession {
  sess_ID : string;
  sess_User : User;
  WS : WebSession }.

(** [type PackedKeys struct] *)
Record PackedKeys := mkPackedKeys {
  pk_Key : bytes;
  pk_Cert : bytes }.

(** [sess.WS.Priv = nil] *)
Definition WebSession_clear_Priv (ws : WebSession) : WebSession :=
  {| Priv := []; Pub := Pub ws; Expires := Expires ws; BearerToken := BearerToken ws |}.

Definition Session_clear_Priv (sess : Session) : Session :=
  {| sess_ID := sess_ID sess; sess_User := sess_User sess;
     WS := WebSession_clear_Priv (WS sess) |}.

(** [const ( ... )] *)
Definition WebSessionTTL : Duration := 10 * Minute.
Definition TokenLenBytes : nat := 16.
Definition WebSessionTokenLenBytes : nat := 32.

(** [type AuthServer struct].  The lock and presence services are not used
    by any method of [auth.go] and are left out.  [signing_calls] is the
    history of the calls made to the [Authority] capability, oldest first;
    [entropy] is what the random source will return. *)
Record AuthServer (B C : Type) := mkAuthServer {
  clock : C;
  authority : B;
  signing_calls : list AuthorityCall;
  Hostname : string;
  CAService : services_CAService;
  ProvisioningService : services_ProvisioningService;
  WebService : services_WebService;
  BkKeysService : services_BkKeysService;
  entropy : bytes }.
Arguments mkAuthServer {B C}.
Arguments clock {B C}.
Arguments authority {B C}.
Arguments signing_calls {B C}.
Arguments Hostname {B C}.
Arguments CAService {B C}.
Arguments ProvisioningService {B C}.
Arguments WebService {B C}.
Arguments BkKeysService {B C}.
Arguments entropy {B C}.

Section AuthServer.

Context {B C : Type} `{Authority B} `{Clock C} `{Helpers}.

Abbreviation Server := (AuthServer B C).

Definition set_clock (c : C) (s : Server) : Server :=
  mkAuthServer c (authority s) (signing_calls s) (Hostname s) (CAService s)
    (ProvisioningService s) (WebService s) (BkKeysService s) (entropy s).

Definition set_authority (b : B) (call : AuthorityCall) (s : Server) : Server :=
  mkAuthServer (clock s) b (signing_calls s ++ [call]) (Hostname s) (CAService s)
    (ProvisioningService s) (WebService s) (BkKeysService s) (entropy s).

Definition set_ProvisioningService (st : services_ProvisioningService)
    (s : Server) : Server :=
  mkAuthServer (clock s) (authority s) (signing_calls s) (Hostname s) (CAService s)
    st (WebService s) (BkKeysService s) (entropy s).

Definition set_WebService (st : services_WebService) (s : Server) : Server :=
  mkAuthServer (clock s) (authority s) (signing_calls s) (Hostname s) (CAService s)
    (ProvisioningService s) st (BkKeysService s) (entropy s).

Definition set_BkKeysService (st : services_BkKeysService) (s : Server) : Server :=
  mkAuthServer (clock s) (authority s) (signing_calls s) (Hostname s) (CAService s)
    (ProvisioningService s) (WebService s) st (entropy s).

Definition set_entropy (e : bytes) (s : Server) : Server :=
  mkAuthServer (clock s) (authority s) (signing_calls s) (Hostname s) (CAService s)
    (ProvisioningService s) (WebService s) (BkKeysService s) e.

(** A value computed without the server state. *)
Definition pure {A} (r : Result A) : M Server A := fun s => (r, s).

(** A call to the signing backend: it runs on the backend's state and is
    recorded in the history. *)
Definition call {A} (c : AuthorityCall) (op : B -> Result A * B) : M Server A :=
  fun s => let (r, b) := op (authority s) in (r, set_authority b c s).

(** The embedded services, as the methods [AuthServer] promotes. *)
Definition ProvisioningService_UpsertToken (token domainName role : string)
    (ttl : Duration) : M Server unit :=
  fun s => let (r, st) := services_UpsertToken token domainName role ttl
                            (ProvisioningService s) in
           (r, set_ProvisioningService st s).

Definition ProvisioningService_GetToken (token : string) : M Server ProvisionToken :=
  reads (fun s => services_GetToken token (ProvisioningService s)).

Definition ProvisioningService_DeleteToken (token : string) : M Server unit :=
  fun s => let (r, st) := services_DeleteToken token (ProvisioningService s) in
           (r, set_ProvisioningService st s).

Definition CAService_GetCertAuthority (id : CertAuthID) (loadSigningKeys : bool)
    : M Server CertAuthority :=
  reads (fun s => services_GetCertAuthority id loadSigningKeys (CAService s)).

Definition WebService_UpsertWebSession (user sid : string) (ws : WebSession)
    (ttl : Duration) : M Server unit :=
  fun s => let (r, st) := services_UpsertWebSession user sid ws ttl (WebService s) in
           (r, set_WebService st s).

Definition WebService_GetWebSession (user sid : string) : M Server WebSession :=
  reads (fun s => services_GetWebSession user sid (WebService s)).

Definition WebService_DeleteWebSession (user sid : string) : M Server unit :=
  fun s => let (r, st) := services_DeleteWebSession user sid (WebService s) in
           (r, set_WebService st s).

Definition GetUser (name : string) : M Server User :=
  reads (fun s => services_GetUser name (WebService s)).

Definition BkKeysService_AddSealKey (k : Key) : M Server unit :=
  fun s => let (r, st) := services_AddSealKey k (BkKeysService s) in
           (r, set_BkKeysService st s).

Definition BkKeysService_GetSignKey : M Server Key :=
  reads (fun s => services_GetSignKey (BkKeysService s)).

Definition utils_CryptoRandomHex (n : nat) : M Server string :=
  fun s => let (r, e) := CryptoRandomHex n (entropy s) in (r, set_entropy e s).

Definition clock_Now : M Server Time :=
  fun s => let (t, c) := Now (clock s) in (Ok t, set_clock c s).

(** [func (a *AuthServer) GetLocalDomain() (string, error)] *)
Definition GetLocalDomain : M Server string := gets Hostname.

(** [func (s *AuthServer) GenerateHostCert(key, hostname, authDomain, role, ttl)] *)
Definition GenerateHostCert (key : bytes) (hostname authDomain : string)
    (role : Role) (ttl : Duration) : M Server bytes :=
  hostName <- gets Hostname ;;
  ca <- wrap (CAService_GetCertAuthority
                {| id_Type := HostCA; id_DomainName := hostName |} true) ;;
  privateKey <- wrap (pure (FirstSigningKey ca)) ;;
  call (CallGenerateHostCert privateKey key hostname authDomain role ttl)
       (Authority_GenerateHostCert privateKey key hostname authDomain role ttl).

(** [func (s *AuthServer) GenerateUserCert(key, username, ttl)] *)
Definition GenerateUserCert (key : bytes) (username : string) (ttl : Duration)
    : M Server bytes :=
  hostName <- gets Hostname ;;
  ca <- wrap (CAService_GetCertAuthority
                {| id_Type := UserCA; id_DomainName := hostName |} true) ;;
  privateKey <- wrap (pure (FirstSigningKey ca)) ;;
  call (CallGenerateUserCert privateKey key username ttl)
       (Authority_GenerateUserCert privateKey key username ttl).

(** [func (s *AuthServer) NewWebSession(userName string)] *)
Definition NewWebSession (userName : string) : M Server Session :=
  token <- wrap (utils_CryptoRandomHex WebSessionTokenLenBytes) ;;
  bearerToken <- wrap (utils_CryptoRandomHex WebSessionTokenLenBytes) ;;
  kp <- call CallGetNewKeyPairFromPool Authority_GetNewKeyPairFromPool ;;
  let priv := fst kp in
  let pub := snd kp in
  hostName <- gets Hostname ;;
  ca <- wrap (CAService_GetCertAuthority
                {| id_Type := UserCA; id_DomainName := hostName |} true) ;;
  privateKey <- wrap (pure (FirstSigningKey ca)) ;;
  cert <- call (CallGenerateUserCert privateKey pub userName WebSessionTTL)
               (Authority_GenerateUserCert privateKey pub userName WebSessionTTL) ;;
  user <- wrap (GetUser userName) ;;
  now <- clock_Now ;;
  ret {| sess_ID := token;
         sess_User := user;
         WS := {| Priv := priv;
                  Pub := cert;
                  Expires := Time_Add (Time_UTC now) WebSessionTTL;
                  BearerToken := bearerToken |} |}.

(** [func (s *AuthServer) UpsertWebSession(user, sess, ttl) error] *)
Definition UpsertWebSession (user : string) (sess : Session) (ttl : Duration)
    : M Server unit :=
  WebService_UpsertWebSession user (sess_ID sess) (WS sess) ttl.

(** [func (s *AuthServer) GetWebSession(userName, id)] *)
Definition GetWebSession (userName id : string) : M Server Session :=
  ws <- wrap (WebService_GetWebSession userName id) ;;
  user <- wrap (GetUser userName) ;;
  ret {| sess_ID := id; sess_User := user; WS := ws |}.

(** [func (s *AuthServer) GetWebSessionInfo(userName, id)] *)
Definition GetWebSessionInfo (userName id : string) : M Server Session :=
  sess <- wrap (WebService_GetWebSession userName id) ;;
  user <- wrap (GetUser userName) ;;
  let sess := WebSession_clear_Priv sess in
  ret {| sess_ID := id; sess_User := user; WS := sess |}.

(** [func (s *AuthServer) DeleteWebSession(user, id) error] *)
Definition DeleteWebSession (user id : string) : M Server unit :=
  wrap (WebService_DeleteWebSession user id).

(** [func (s *AuthServer) SignIn(user, password)] *)
Definition SignIn (user : string) (password : bytes) : M Server Session :=
  wrap (reads (fun s => CheckPasswordWOToken user password (WebService s))) ;;;
  sess <- wrap (NewWebSession user) ;;
  wrap (UpsertWebSession user sess WebSessionTTL) ;;;
  let sess := Session_clear_Priv sess in
  ret sess.

(** [func (s *AuthServer) CreateWebSession(user, prevSessionID)] *)
Definition CreateWebSession (user prevSessionID : string) : M Server Session :=
  wrap (GetWebSession user prevSessionID) ;;;
  sess <- wrap (NewWebSession user) ;;
  wrap (UpsertWebSession user sess WebSessionTTL) ;;;
  let sess := Session_clear_Priv sess in
  ret sess.

(** [func (s *AuthServer) GenerateToken(nodeName, role, ttl) (string, error)] *)
Definition GenerateToken (nodeName : string) (role : Role) (ttl : Duration)
    : M Server string :=
  if negb (IsValidDomainName nodeName)
  then fail (trace_Wrap (BadParameter "nodeName"
               ("'" +:+ nodeName +:+ "' is not a valid dns name")))
  else
    wrap (pure (Role_Check role)) ;;;
    token <- wrap (utils_CryptoRandomHex TokenLenBytes) ;;
    outputToken <- pure (JoinTokenRole token role) ;;
    ProvisioningService_UpsertToken token nodeName role ttl ;;;
    ret outputToken.

(** [func (s *AuthServer) ValidateToken(token, domainName) (role string, e error)] *)
Definition ValidateToken (token domainName : string) : M Server string :=
  tr <- wrap (pure (SplitTokenRole token)) ;;
  let token := fst tr in
  tok <- wrap (ProvisioningService_GetToken token) ;;
  if decide (tok_DomainName tok <> domainName)
  then fail (Errorf "domainName does not match")
  else ret (tok_Role tok).

(** [func (s *AuthServer) DeleteToken(outputToken string) error] *)
Definition DeleteToken (outputToken : string) : M Server unit :=
  tr <- pure (SplitTokenRole outputToken) ;;
  let token := fst tr in
  ProvisioningService_DeleteToken token.

(** [func (s *AuthServer) RegisterUsingToken(outputToken, nodename, role)];
    the log lines are not modelled. *)
Definition RegisterUsingToken (outputToken nodename : string) (role : Role)
    : M Server PackedKeys :=
  wrap (pure (Role_Check role)) ;;;
  tr <- wrap (pure (SplitTokenRole outputToken)) ;;
  let token := fst tr in
  tok <- wrap (ProvisioningService_GetToken token) ;;
  if decide (tok_DomainName tok <> nodename)
  then fail (trace_Wrap (BadParameter "domainName" "domainName does not match"))
  else
  if decide (tok_Role tok <> role)
  then fail (trace_Wrap (BadParameter "token.Role" "role does not match"))
  else
    kp <- wrap (call (CallGenerateKeyPair EmptyString) (Authority_GenerateKeyPair EmptyString)) ;;
    let k := fst kp in
    let pub := snd kp in
    hostName <- gets Hostname ;;
    let fqdn := nodename +:+ "." +:+ hostName in
    c <- wrap (GenerateHostCert pub fqdn hostName role 0) ;;
    let keys := {| pk_Key := k; pk_Cert := c |} in
    wrap (DeleteToken outputToken) ;;;
    ret keys.

(** [func (s *AuthServer) RegisterNewAuthServer(domainName, outputToken, publicSealKey)] *)
Definition RegisterNewAuthServer (domainName outputToken : string)
    (publicSealKey : Key) : M Server Key :=
  tr <- wrap (pure (SplitTokenRole outputToken)) ;;
  let token := fst tr in
  tok <- wrap (ProvisioningService_GetToken token) ;;
  if decide (tok_DomainName tok <> domainName)
  then fail (trace_Wrap (AccessDenied "domainName does not match"))
  else
  if decide (tok_Role tok <> RoleAuth)
  then fail (trace_Wrap (AccessDenied "role does not match"))
  else
    wrap (DeleteToken outputToken) ;;;
    wrap (BkKeysService_AddSealKey publicSealKey) ;;;
    localKey <- wrap (BkKeysService_GetSignKey) ;;
    ret (Key_Public localKey).

(** [preserves f m]: running [m] does not change the part [f] of the
    server, whatever the outcome. *)
Definition preserves {A X} (f : Server -> X) (m : M Server A) : Prop :=
  forall s r s', m s = (r, s') -> f s' = f s.

End AuthServer.

(** ** Construction of the server *)

(** Modelled from the spec: [encryptedbk.ReplicatedBackend] and the service
    constructors [services.NewCAService], [services.NewProvisioningService],
    [services.NewWebService] and [services.NewBkKeysService] are missing from
    the sources; the directory services are persistence services over the
    one backend, so a backend is what the services built on it keep. *)
Record ReplicatedBackend := mkReplicatedBackend {
  backend_CA : services_CAService;
  backend_Provisioning : services_ProvisioningService;
  backend_Web : services_WebService;
  backend_BkKeys : services_BkKeysService }.

Section Construction.

Context {B C : Type}.

(** [AuthServer{}] while it is built: the clock and the [Authority] are
    interface values and may be nil. *)
Abbreviation PartialServer := (AuthServer (option B) (option C)).

(** [type AuthServerOption func( *AuthServer)] *)
Definition AuthServerOption : Type := PartialServer -> PartialServer.

(** [func AuthClock(clock clockwork.Clock) AuthServerOption]; the clock is
    an interface value, [None] is nil. *)
Definition AuthClock (clock : option C) : AuthServerOption :=
  fun a => set_clock clock a.

(** The zero value [AuthServer{}]; the random source of the process is not
    a field of the struct and travels with it. *)
Definition zero_AuthServer (random : bytes) : PartialServer :=
  mkAuthServer None None [] EmptyString ∅ ∅
    {| web_sessions := ∅; web_users := ∅ |}
    {| bk_sealKeys := []; bk_signKey := None |}
    random.

(** [func NewAuthServer(bk, a, hostname, opts ...AuthServerOption) *AuthServer];
    [realClock] is [clockwork.NewRealClock()].  The new server has made no
    call to [a] yet. *)
Definition NewAuthServer (realClock : C) (random : bytes)
    (bk : ReplicatedBackend) (a : B) (hostname : string)
    (opts : list AuthServerOption) : AuthServer B C :=
  let as_ := fold_left (fun as_ o => o as_) opts (zero_AuthServer random) in
  let clock := match clock as_ with
               | None => realClock
               | Some c => c
               end in
  mkAuthServer clock a [] hostname
    (backend_CA bk) (backend_Provisioning bk) (backend_Web bk) (backend_BkKeys bk)
    (entropy as_).

End Construction.

(** ** Package [ui]: discovery configs *)
Module ui.

(** [trace.BadParameter(message)] *)
Definition trace_BadParameter (msg : string) : Error := BadParameter EmptyString msg.

(** [discoveryconfig.DiscoveryConfig] is not part of the sources: its two
    getters and the matcher lists of its [Spec] are what the package reads
    of it. *)
Class DiscoveryConfigAPI (T AWSMatcher AzureMatcher GCPMatcher KubernetesMatcher : Type) := {
  GetName : T -> string;
  GetDiscoveryGroup : T -> string;
  Spec_AWS : T -> list AWSMatcher;
  Spec_Azure : T -> list AzureMatcher;
  Spec_GCP : T -> list GCPMatcher;
  Spec_Kube : T -> list KubernetesMatcher }.

(** [type DiscoveryConfig struct] *)
Record DiscoveryConfig (AWSMatcher AzureMatcher GCPMatcher KubernetesMatcher : Type) :=
  mkDiscoveryConfig {
    Name : string;
    DiscoveryGroup : string;
    AWS : list AWSMatcher;
    Azure : list AzureMatcher;
    GCP : list GCPMatcher;
    Kube : list KubernetesMatcher }.
Arguments mkDiscoveryConfig {_ _ _ _}.
Arguments Name {_ _ _ _}.
Arguments DiscoveryGroup {_ _ _ _}.
Arguments AWS {_ _ _ _}.
Arguments Azure {_ _ _ _}.
Arguments GCP {_ _ _ _}.
Arguments Kube {_ _ _ _}.

(** [type UpdateDiscoveryConfigRequest struct] *)
Record UpdateDiscoveryConfigRequest (AWSMatcher AzureMatcher GCPMatcher KubernetesMatcher : Type) :=
  mkUpdateDiscoveryConfigRequest {
    upd_DiscoveryGroup : string;
    upd_AWS : list AWSMatcher;
    upd_Azure : list AzureMatcher;
    upd_GCP : list GCPMatcher;
    upd_Kube : list KubernetesMatcher }.
Arguments mkUpdateDiscoveryConfigRequest {_ _ _ _}.
Arguments upd_DiscoveryGroup {_ _ _ _}.
Arguments upd_AWS {_ _ _ _}.
Arguments upd_Azure {_ _ _ _}.
Arguments upd_GCP {_ _ _ _}.
Arguments upd_Kube {_ _ _ _}.

Section DiscoveryConfigs.

Context {T AWSMatcher AzureMatcher GCPMatcher KubernetesMatcher : Type}
        `{DiscoveryConfigAPI T AWSMatcher AzureMatcher GCPMatcher KubernetesMatcher}.

(** [func (r *DiscoveryConfig) CheckAndSetDefaults() error] *)
Definition DiscoveryConfig_CheckAndSetDefaults
    (r : DiscoveryConfig AWSMatcher AzureMatcher GCPMatcher KubernetesMatcher)
    : Result unit :=
  if decide (Name r = EmptyString)
  then Err (trace_BadParameter "missing discovery config name")
  else if decide (DiscoveryGroup r = EmptyString)
  then Err (trace_BadParameter "missing discovery group")
  else Ok tt.

(** [func (r *UpdateDiscoveryConfigRequest) CheckAndSetDefaults() error] *)
Definition UpdateDiscoveryConfigRequest_CheckAndSetDefaults
    (r : UpdateDiscoveryConfigRequest AWSMatcher AzureMatcher GCPMatcher KubernetesMatcher)
    : Result unit :=
  if decide (upd_DiscoveryGroup r = EmptyString)
  then Err (trace_BadParameter "missing discovery group")
  else Ok tt.

(** [func MakeDiscoveryConfig(dc *discoveryconfig.DiscoveryConfig) DiscoveryConfig];
    the argument is a pointer: [None] is nil, and reading [dc.Spec] of a nil
    pointer panics, which is the result [None]. *)
Definition MakeDiscoveryConfig (dc : option T)
    : option (DiscoveryConfig AWSMatcher AzureMatcher GCPMatcher KubernetesMatcher) :=
  match dc with
  | None => None
  | Some dc =>
      Some {| Name := GetName dc;
              DiscoveryGroup := GetDiscoveryGroup dc;
              AWS := Spec_AWS dc;
              Azure := Spec_Azure dc;
              GCP := Spec_GCP dc;
              Kube := Spec_Kube dc |}
  end.

(** The loop of [MakeDiscoveryConfigs]: [uiList = append(uiList, ...)] for
    each element in turn. *)
Fixpoint MakeDiscoveryConfigs_loop (dcs : list (option T))
    (uiList : list (DiscoveryConfig AWSMatcher AzureMatcher GCPMatcher KubernetesMatcher))
    : option (list (DiscoveryConfig AWSMatcher AzureMatcher GCPMatcher KubernetesMatcher)) :=
  match dcs with
  | [] => Some uiList
  | dc :: rest =>
      match MakeDiscoveryConfig dc with
      | None => None
      | Some u => MakeDiscoveryConfigs_loop rest (uiList ++ [u])
      end
  end.

(** [func MakeDiscoveryConfigs(dcs []*discoveryconfig.DiscoveryConfig) []DiscoveryConfig] *)
Definition MakeDiscoveryConfigs (dcs : list (option T))
    : option (list (DiscoveryConfig AWSMatcher AzureMatcher GCPMatcher KubernetesMatcher)) :=
  MakeDiscoveryConfigs_loop dcs [].

End DiscoveryConfigs.

End ui.

(** ** Test doubles

    A deterministic signing backend, a fixed clock and simple helper
    functions, used to run the server on concrete inputs. *)
Module Fake.

(** The backend counts the key pairs it has handed out; the [n]-th pair
    is ([0x01; n], [0x02; n]).  A certificate lists the signing key, the
    signed public key and the bytes of the principal. *)
Definition nth_byte (n : nat) : Byte.byte :=
  match Byte.of_nat n with Some b => b | None => x00 end.

Definition keypair (n : nat) : bytes * bytes :=
  ([x01; nth_byte n], [x02; nth_byte n]).

#[export] Instance signer : Authority nat := {
  Authority_GenerateKeyPair _ n := (Ok (keypair n), S n);
  Authority_GetNewKeyPairFromPool n := (Ok (keypair n), S n);
  Authority_GenerateHostCert pkey key hostname _ _ _ n :=
    (Ok (pkey ++ key ++ list_byte_of_string hostname)%list, n);
  Authority_GenerateUserCert pkey key username _ n :=
    (Ok (pkey ++ key ++ list_byte_of_string username)%list, n) }.

(** A clock that always shows the same time. *)
#[export] Instance fixed_clock : Clock Time := {
  Now t := (t, t) }.

Definition split (outputToken : string) : Result (string * string) :=
  match outputToken with
  | String "a" token => Ok (token, "Auth")
  | String "n" token => Ok (token, "Node")
  | _ => Err (BadParameter "token" "unknown role tag")
  end.

Definition join (token role : string) : Result string :=
  if decide (role = "Auth") then Ok ("a" +:+ token)
  else if decide (role = "Node") then Ok ("n" +:+ token)
  else Err (BadParameter "role" "unknown role").

Definition check (role : string) : Result unit :=
  if decide (role = "Auth") then Ok tt
  else if decide (role = "Node") then Ok tt
  else Err (BadParameter "role" "role is not registered").

Definition check_password (user : string) (password : bytes)
    (st : services_WebService) : Result unit :=
  match web_users st !! user with
  | Some _ => if decide (map Byte.to_N password = [112; 119]%N) then Ok tt
              else Err (BadParameter "password" "passwords do not match")
  | None => Err (NotFound "user not found")
  end.

#[export] Instance helpers : Helpers := {
  IsValidDomainName name := negb (String.eqb name EmptyString);
  Role_Check := check;
  RoleAuth := "Auth";
  JoinTokenRole := join;
  SplitTokenRole := split;
  CheckPasswordWOToken := check_password }.

Definition noon : Time := {| unixNano := 1000; location := NamedLocation "Local" |}.

Definition alice : User := {| user_Name := "alice"; user_AllowedLogins := ["root"] |}.

Definition host_ca : CertAuthority :=
  {| ca_Type := HostCA; ca_DomainName := "cluster.example";
     ca_CheckingKeys := [[x0a]]; ca_SigningKeys := [[x0b]] |}.

Definition user_ca : CertAuthority :=
  {| ca_Type := UserCA; ca_DomainName := "cluster.example";
     ca_CheckingKeys := [[x0c]]; ca_SigningKeys := [[x0d]] |}.

Definition stored_session : WebSession :=
  {| Priv := [x53; x4b]; Pub := [x50]; Expires := noon; BearerToken := "bearer" |}.

(** A server of the cluster "cluster.example" with both CAs, the user
    alice, one web session of hers, a node token for "db1", a peer token
    for "auth2" and no local sign key. *)
Definition server : AuthServer nat Time :=
  {| clock := noon;
     authority := 0%nat;
     signing_calls := [];
     Hostname := "cluster.example";
     CAService := <[(HostCA, "cluster.example") := host_ca]>
                    (<[(UserCA, "cluster.example") := user_ca]> ∅);
     ProvisioningService :=
       <["t1" := ({| tok_DomainName := "db1"; tok_Role := "Node" |}, 0)]>
         (<["t2" := ({| tok_DomainName := "auth2"; tok_Role := "Auth" |}, 0)]> ∅);
     WebService := {| web_sessions := <[("alice", "s0") := (stored_session, WebSessionTTL)]> ∅;
                      web_users := <["alice" := alice]> ∅ |};
     BkKeysService := {| bk_sealKeys := []; bk_signKey := None |};
     entropy := map nth_byte (seq 0 100) |}.

(** The same server without its certificate authorities. *)
Definition server_without_ca : AuthServer nat Time :=
  {| clock := clock server; authority := authority server;
     signing_calls := signing_calls server; Hostname := Hostname server;
     CAService := ∅;
     ProvisioningService := ProvisioningService server;
     WebService := WebService server;
     BkKeysService := BkKeysService server;
     entropy := entropy server |}.

(** The same server whose CAs have lost their signing keys. *)
Definition server_without_signing_keys : AuthServer nat Time :=
  {| clock := clock server; authority := authority server;
     signing_calls := signing_calls server; Hostname := Hostname server;
     CAService :=
       <[(HostCA, "cluster.example") :=
           {| ca_Type := HostCA; ca_DomainName := "cluster.example";
              ca_CheckingKeys := [[x0a]]; ca_SigningKeys := [] |}]>
         (<[(UserCA, "cluster.example") :=
              {| ca_Type := UserCA; ca_DomainName := "cluster.example";
                 ca_CheckingKeys := [[x0c]]; ca_SigningKeys := [] |}]> ∅);
     ProvisioningService := ProvisioningService server;
     WebService := WebService server;
     BkKeysService := BkKeysService server;
     entropy := entropy server |}.

Definition seal_key : Key :=
  {| key_ID := "k1"; key_Name := "auth2"; key_PrivateValue := [];
     key_PublicValue := [x99] |}.

End Fake.

(** More servers and values for the runs. *)
Module Scenario.

Definition local_sign_key : Key :=
  {| key_ID := "k0"; key_Name := "cluster.example"; key_PrivateValue := [x11; x12];
     key_PublicValue := [x21] |}.

(** The test server with a local sign key and one stored seal key. *)
Definition server_with_sign_key : AuthServer nat Time :=
  {| clock := clock Fake.server; authority := authority Fake.server;
     signing_calls := signing_calls Fake.server; Hostname := Hostname Fake.server;
     CAService := CAService Fake.server;
     ProvisioningService := ProvisioningService Fake.server;
     WebService := WebService Fake.server;
     BkKeysService := {| bk_sealKeys := [local_sign_key]; bk_signKey := Some local_sign_key |};
     entropy := entropy Fake.server |}.

Definition two_key_ca (t : CertAuthType) : CertAuthority :=
  {| ca_Type := t; ca_DomainName := "cluster.example";
     ca_CheckingKeys := [[x0a]]; ca_SigningKeys := [[x0b]; [x0e]] |}.

(** The test server whose CAs hold two signing keys each. *)
Definition server_with_two_keys : AuthServer nat Time :=
  {| clock := clock Fake.server; authority := authority Fake.server;
     signing_calls := signing_calls Fake.server; Hostname := Hostname Fake.server;
     CAService := <[(HostCA, "cluster.example") := two_key_ca HostCA]>
                    (<[(UserCA, "cluster.example") := two_key_ca UserCA]> ∅);
     ProvisioningService := ProvisioningService Fake.server;
     WebService := WebService Fake.server;
     BkKeysService := BkKeysService Fake.server;
     entropy := entropy Fake.server |}.

(** The backend of the test server. *)
Definition backend : ReplicatedBackend :=
  {| backend_CA := CAService Fake.server;
     backend_Provisioning := ProvisioningService Fake.server;
     backend_Web := WebService Fake.server;
     backend_BkKeys := BkKeysService Fake.server |}.

Definition midnight : Time := {| unixNano := 5000; location := NamedLocation "Local" |}.

(** A session whose user record is not the one of the directory. *)
Definition foreign_session : Session :=
  {| sess_ID := "s9";
     sess_User := {| user_Name := "mallory"; user_AllowedLogins := ["admin"] |};
     WS := {| Priv := [x31]; Pub := [x32]; Expires := Fake.noon; BearerToken := "b9" |} |}.

(** A discovery config of the API, with AWS matchers only. *)
Record api_config := mk_api_config {
  api_name : string;
  api_group : string;
  api_aws : list nat }.

#[export] Instance api : ui.DiscoveryConfigAPI api_config nat nat nat nat := {
  ui.GetName := api_name;
  ui.GetDiscoveryGroup := api_group;
  ui.Spec_AWS := api_aws;
  ui.Spec_Azure _ := [];
  ui.Spec_GCP _ := [];
  ui.Spec_Kube _ := [] }.

Definition prod_config : api_config :=
  {| api_name := "prod"; api_group := "g1"; api_aws := [1%nat; 2%nat] |}.

Definition unnamed_config : api_config :=
  {| api_name := EmptyString; api_group := "g2"; api_aws := [] |}.

(** The test server with its random source exhausted. *)
Definition server_without_entropy : AuthServer nat Time :=
  {| clock := clock Fake.server; authority := authority Fake.server;
     signing_calls := signing_calls Fake.server; Hostname := Hostname Fake.server;
     CAService := CAService Fake.server;
     ProvisioningService := ProvisioningService Fake.server;
     WebService := WebService Fake.server;
     BkKeysService := BkKeysService Fake.server;
     entropy := [] |}.

(** Helper functions whose role check knows the role "Proxy", which
    [Fake.join] cannot encode. *)
Definition check_with_proxy (role : string) : Result unit :=
  if decide (role = "Proxy") then Ok tt else Fake.check role.

Definition helpers_with_proxy : Helpers :=
  {| IsValidDomainName name := negb (String.eqb name EmptyString);
     Role_Check := check_with_proxy;
     RoleAuth := "Auth";
     JoinTokenRole := Fake.join;
     SplitTokenRole := Fake.split;
     CheckPasswordWOToken := Fake.check_password |}.



End Scenario.

(** * Properties *)

(** ** Running the monad *)

Lemma bind_Ok {St A B} (m : M St A) (k : A -> M St B) s b s' :
  bind m k s = (Ok b, s') <->
  exists a s1, m s = (Ok a, s1) /\ k a s1 = (Ok b, s').
Proof.
  unfold bind. destruct (m s) as [[a|e] s1]; split.
  - intros Hk. exists a, s1. done.
  - intros (a' & s2 & Hm & Hk). by simplify_eq.
  - done.
  - intros (a' & s2 & Hm & Hk). done.
Qed.

Lemma bind_Err {St A B} (m : M St A) (k : A -> M St B) s e s' :
  bind m k s = (Err e, s') <->
  m s = (Err e, s') \/ exists a s1, m s = (Ok a, s1) /\ k a s1 = (Err e, s').
Proof.
  unfold bind. destruct (m s) as [[a|e0] s1]; split.
  - intros Hk. right. exists a, s1. done.
  - intros [Hm | (a' & s2 & Hm & Hk)]; [done | by simplify_eq].
  - intros Hm. left. by simplify_eq.
  - intros [Hm | (a' & s2 & Hm & Hk)]; by simplify_eq.
Qed.

Lemma wrap_run {St A} (m : M St A) s : wrap m s = m s.
Proof. unfold wrap, trace_Wrap. by destruct (m s) as [[a|e] s1]. Qed.

Section Properties.

Context {B C : Type} `{Authority B} `{Clock C} `{Helpers}.

Implicit Types s : AuthServer B C.

#[local] Abbreviation preserves := (preserves (B := B) (C := C)).

(** ** Join tokens *)

(** What [DeleteToken] leaves behind: no record under the raw token. *)
Lemma DeleteToken_removes s outputToken raw r :
  SplitTokenRole outputToken = Ok (raw, r) ->
  ProvisioningService (DeleteToken outputToken s).2 !! raw = None.
Proof.
  intros Hsplit. unfold DeleteToken, bind, pure. rewrite Hsplit. simpl.
  unfold ProvisioningService_DeleteToken, services_DeleteToken.
  destruct (ProvisioningService s !! raw) as [rec|] eqn:Hget; simpl.
  - apply lookup_delete_eq.
  - exact Hget.
Qed.

Lemma DeleteToken_undecodable s outputToken e :
  SplitTokenRole outputToken = Err e ->
  DeleteToken outputToken s = (Err e, s).
Proof. intros Hsplit. unfold DeleteToken, bind, pure. by rewrite Hsplit. Qed.

(** Without a record, validation stops at the lookup. *)
Lemma ValidateToken_missing s outputToken domainName raw r :
  SplitTokenRole outputToken = Ok (raw, r) ->
  ProvisioningService s !! raw = None ->
  ValidateToken outputToken domainName s =
    (Err (NotFound "provisioning token not found"), s).
Proof.
  intros Hsplit Hget.
  unfold ValidateToken, bind. rewrite wrap_run. unfold pure. rewrite Hsplit.
  rewrite wrap_run. simpl.
  unfold ProvisioningService_GetToken, reads, services_GetToken.
  by rewrite Hget.
Qed.

Lemma ValidateToken_undecodable s outputToken domainName e :
  SplitTokenRole outputToken = Err e ->
  ValidateToken outputToken domainName s = (Err e, s).
Proof.
  intros Hsplit. unfold ValidateToken, bind. rewrite wrap_run. unfold pure.
  by rewrite Hsplit.
Qed.

(** Registration stops at the role check, at the decoding or at the
    lookup. *)
Lemma RegisterUsingToken_missing s outputToken nodename role raw r :
  Role_Check role = Ok tt ->
  SplitTokenRole outputToken = Ok (raw, r) ->
  ProvisioningService s !! raw = None ->
  RegisterUsingToken outputToken nodename role s =
    (Err (NotFound "provisioning token not found"), s).
Proof.
  intros Hrole Hsplit Hget.
  unfold RegisterUsingToken, bind. rewrite wrap_run. unfold pure at 1.
  rewrite Hrole. rewrite wrap_run. unfold pure. rewrite Hsplit.
  rewrite wrap_run. simpl.
  unfold ProvisioningService_GetToken, reads, services_GetToken.
  by rewrite Hget.
Qed.

Lemma RegisterUsingToken_bad_role s outputToken nodename role e :
  Role_Check role = Err e ->
  RegisterUsingToken outputToken nodename role s = (Err e, s).
Proof.
  intros Hrole. unfold RegisterUsingToken, bind. rewrite wrap_run.
  unfold pure at 1. by rewrite Hrole.
Qed.

Lemma RegisterUsingToken_undecodable s outputToken nodename role e :
  Role_Check role = Ok tt ->
  SplitTokenRole outputToken = Err e ->
  RegisterUsingToken outputToken nodename role s = (Err e, s).
Proof.
  intros Hrole Hsplit. unfold RegisterUsingToken, bind. rewrite wrap_run.
  unfold pure at 1. rewrite Hrole. rewrite wrap_run. unfold pure.
  by rewrite Hsplit.
Qed.

(** C1: once [DeleteToken] has run on an output token, [ValidateToken] and
    [RegisterUsingToken] on the same output token both return an error and
    leave the state as it is.  The error of [ValidateToken] is the decoding
    error of the token or a NotFound error; the error of
    [RegisterUsingToken] is the error of the role check, the decoding error
    of the token or a NotFound error. *)
Theorem deleted_token_is_rejected s outputToken domainName nodename role :
  let s' := (DeleteToken outputToken s).2 in
  (exists e, ValidateToken outputToken domainName s' = (Err e, s') /\
             (SplitTokenRole outputToken = Err e \/ IsNotFound e = true)) /\
  (exists e, RegisterUsingToken outputToken nodename role s' = (Err e, s') /\
             (Role_Check role = Err e \/ SplitTokenRole outputToken = Err e \/
              IsNotFound e = true)).
Proof.
  intros s'. subst s'.
  destruct (SplitTokenRole outputToken) as [[raw r]|e] eqn:Hsplit.
  - pose proof (DeleteToken_removes s outputToken raw r Hsplit) as Hgone.
    split.
    + eexists. split; [by eapply ValidateToken_missing | by right].
    + destruct (Role_Check role) as [[]|e] eqn:Hrole.
      * eexists. split; [by eapply RegisterUsingToken_missing | by right; right].
      * exists e. split; [by apply RegisterUsingToken_bad_role | by left].
  - rewrite (DeleteToken_undecodable s outputToken e Hsplit). simpl. split.
    + exists e. split; [by apply ValidateToken_undecodable | by left].
    + destruct (Role_Check role) as [[]|e'] eqn:Hrole.
      * exists e. split; [by apply RegisterUsingToken_undecodable | by right; left].
      * exists e'. split; [by apply RegisterUsingToken_bad_role | by left].
Qed.

(** ** The primitives *)

Lemma pure_inv {A} (r r' : Result A) s s' :
  pure r s = (r', s') -> r = r' /\ s' = s.
Proof. unfold pure. intros Hr. by simplify_eq. Qed.

Lemma reads_inv {A} (g : AuthServer B C -> Result A) r s s' :
  reads g s = (r, s') -> g s = r /\ s' = s.
Proof. unfold reads. intros Hr. by simplify_eq. Qed.

Lemma gets_inv {A} (g : AuthServer B C -> A) r s s' :
  gets g s = (r, s') -> r = Ok (g s) /\ s' = s.
Proof. unfold gets. intros Hr. by simplify_eq. Qed.

Lemma ret_inv {A} (a : A) r s s' :
  ret a s = (r, s') -> r = Ok a /\ s' = s.
Proof. unfold ret. intros Hr. by simplify_eq. Qed.

Lemma fail_inv {A} (e : Error) (r : Result A) s s' :
  fail e s = (r, s') -> r = Err e /\ s' = s.
Proof. unfold fail. intros Hr. by simplify_eq. Qed.

Lemma call_inv {A} c (op : B -> Result A * B) r s s' :
  call c op s = (r, s') ->
  exists b, op (authority s) = (r, b) /\ s' = set_authority b c s.
Proof.
  unfold call. destruct (op (authority s)) as [r0 b]. intros Hr.
  exists b. by simplify_eq.
Qed.

Lemma CryptoRandomHex_Ok n x s s' :
  utils_CryptoRandomHex n s = (Ok x, s') ->
  (n <= length (entropy s))%nat /\
  x = EncodeToString (take n (entropy s)) /\
  s' = set_entropy (drop n (entropy s)) s.
Proof.
  unfold utils_CryptoRandomHex, CryptoRandomHex.
  destruct (n <=? length (entropy s))%nat eqn:Hlen; intros Hr; simplify_eq.
  by apply Nat.leb_le in Hlen.
Qed.

Lemma clock_Now_inv r s s' :
  clock_Now s = (r, s') ->
  r = Ok (Now (clock s)).1 /\ s' = set_clock (Now (clock s)).2 s.
Proof.
  unfold clock_Now. destruct (Now (clock s)) as [t c]. intros Hr.
  by simplify_eq.
Qed.

(** ** Frame properties *)

Lemma preserves_bind {A A' X} (f : AuthServer B C -> X)
    (m : M (AuthServer B C) A) (k : A -> M (AuthServer B C) A') :
  preserves f m -> (forall a, preserves f (k a)) -> preserves f (bind m k).
Proof.
  intros Hm Hk s r s'. unfold bind.
  destruct (m s) as [[a|e] s1] eqn:Hrun; intros Hr.
  - rewrite (Hk a _ _ _ Hr). by eapply Hm.
  - simplify_eq. by eapply Hm.
Qed.

Lemma preserves_wrap {A X} (f : AuthServer B C -> X) (m : M (AuthServer B C) A) :
  preserves f m -> preserves f (wrap m).
Proof. intros Hm s r s'. rewrite wrap_run. apply Hm. Qed.

Lemma preserves_pure {A X} (f : AuthServer B C -> X) (r : Result A) :
  preserves f (pure r).
Proof. intros s r' s' Hr. unfold pure in Hr. by simplify_eq. Qed.

Lemma preserves_reads {A X} (f : AuthServer B C -> X) (g : AuthServer B C -> Result A) :
  preserves f (reads g).
Proof. intros s r' s' Hr. unfold reads in Hr. by simplify_eq. Qed.

Lemma preserves_gets {A X} (f : AuthServer B C -> X) (g : AuthServer B C -> A) :
  preserves f (gets g).
Proof. intros s r' s' Hr. unfold gets in Hr. by simplify_eq. Qed.

Lemma preserves_ret {A X} (f : AuthServer B C -> X) (a : A) :
  preserves f (ret a).
Proof. intros s r' s' Hr. unfold ret in Hr. by simplify_eq. Qed.

Lemma preserves_fail {A X} (f : AuthServer B C -> X) (e : Error) :
  preserves f (fail (A := A) e).
Proof. intros s r' s' Hr. unfold fail in Hr. by simplify_eq. Qed.

Lemma preserves_call {A X} (f : AuthServer B C -> X) c (op : B -> Result A * B) :
  (forall b s, f (set_authority b c s) = f s) -> preserves f (call c op).
Proof.
  intros Hf s r s' Hr. unfold call in Hr.
  destruct (op (authority s)) as [r0 b]. simplify_eq. apply Hf.
Qed.

Lemma preserves_CryptoRandomHex {X} (f : AuthServer B C -> X) n :
  (forall e s, f (set_entropy e s) = f s) -> preserves f (utils_CryptoRandomHex n).
Proof.
  intros Hf s r s' Hr. unfold utils_CryptoRandomHex in Hr.
  destruct (CryptoRandomHex n (entropy s)) as [r0 e]. simplify_eq. apply Hf.
Qed.

Lemma preserves_Now {X} (f : AuthServer B C -> X) :
  (forall c s, f (set_clock c s) = f s) -> preserves f clock_Now.
Proof.
  intros Hf s r s' Hr. unfold clock_Now in Hr.
  destruct (Now (clock s)) as [t c]. simplify_eq. apply Hf.
Qed.

Lemma preserves_UpsertWebSession {X} (f : AuthServer B C -> X) user sid ws ttl :
  (forall st s, f (set_WebService st s) = f s) ->
  preserves f (WebService_UpsertWebSession user sid ws ttl).
Proof.
  intros Hf s r s' Hr. unfold WebService_UpsertWebSession in Hr. simpl in Hr.
  simplify_eq. apply Hf.
Qed.

Lemma preserves_DeleteToken {X} (f : AuthServer B C -> X) outputToken :
  (forall st s, f (set_ProvisioningService st s) = f s) ->
  preserves f (DeleteToken outputToken).
Proof.
  intros Hf. unfold DeleteToken. apply preserves_bind; [ apply preserves_pure | ].
  intros tr s r s' Hr.
  unfold ProvisioningService_DeleteToken in Hr.
  destruct (services_DeleteToken tr.1 (ProvisioningService s)) as [r0 st].
  simplify_eq. apply Hf.
Qed.

Create HintDb frame.
#[local] Hint Resolve preserves_wrap preserves_pure preserves_reads preserves_gets
  preserves_ret preserves_fail : frame.
#[local] Hint Extern 2 (preserves _ (bind _ _)) =>
  apply preserves_bind; [ | intros ? ] : frame.
#[local] Hint Extern 2 (preserves _ (call _ _)) =>
  apply preserves_call; reflexivity : frame.
#[local] Hint Extern 2 (preserves _ (utils_CryptoRandomHex _)) =>
  apply preserves_CryptoRandomHex; reflexivity : frame.
#[local] Hint Extern 2 (preserves _ clock_Now) =>
  apply preserves_Now; reflexivity : frame.
#[local] Hint Extern 2 (preserves _ (WebService_UpsertWebSession _ _ _ _)) =>
  apply preserves_UpsertWebSession; reflexivity : frame.
#[local] Hint Extern 1 (preserves _ (CAService_GetCertAuthority _ _)) =>
  unfold CAService_GetCertAuthority : frame.
#[local] Hint Extern 1 (preserves _ (GetUser _)) => unfold GetUser : frame.
#[local] Hint Extern 1 (preserves _ (WebService_GetWebSession _ _)) =>
  unfold WebService_GetWebSession : frame.
#[local] Hint Extern 1 (preserves _ (ProvisioningService_GetToken _)) =>
  unfold ProvisioningService_GetToken : frame.

(** ** Certificates *)

(** Issuing a certificate does not touch the directory services. *)
Lemma GenerateHostCert_provisioning key hostname authDomain role ttl :
  preserves ProvisioningService (GenerateHostCert key hostname authDomain role ttl).
Proof. unfold GenerateHostCert. eauto 20 with frame. Qed.

(** A new web session touches the random source, the signing backend and
    the clock, and not the web-session store. *)
Lemma NewWebSession_WebService userName :
  preserves WebService (NewWebSession userName).
Proof. unfold NewWebSession. eauto 30 with frame. Qed.

(** ** Registration of a node *)

Lemma DeleteToken_Err s outputToken e s' :
  DeleteToken outputToken s = (Err e, s') ->
  ProvisioningService s' = ProvisioningService s.
Proof.
  unfold DeleteToken. intros Hrun.
  apply bind_Err in Hrun as [Hrun | (tr & s1 & Hsplit & Hrun)].
  - by apply pure_inv in Hrun as [_ ->].
  - apply pure_inv in Hsplit as [_ ->].
    unfold ProvisioningService_DeleteToken, services_DeleteToken in Hrun.
    destruct (ProvisioningService s !! tr.1); by simplify_eq.
Qed.

(** The steps of a successful registration. *)
Lemma RegisterUsingToken_Ok s outputToken nodename role keys s' :
  RegisterUsingToken outputToken nodename role s = (Ok keys, s') ->
  exists raw r tok ttl k pub s1 c s2,
    Role_Check role = Ok tt /\
    SplitTokenRole outputToken = Ok (raw, r) /\
    ProvisioningService s !! raw = Some (tok, ttl) /\
    tok_DomainName tok = nodename /\
    tok_Role tok = role /\
    call (CallGenerateKeyPair EmptyString) (Authority_GenerateKeyPair EmptyString) s = (Ok (k, pub), s1) /\
    GenerateHostCert pub (nodename +:+ "." +:+ Hostname s) (Hostname s) role 0 s1
      = (Ok c, s2) /\
    DeleteToken outputToken s2 = (Ok tt, s') /\
    keys = {| pk_Key := k; pk_Cert := c |}.
Proof.
  unfold RegisterUsingToken. intros Hrun.
  apply bind_Ok in Hrun as ([] & s0 & Hrole & Hrun).
  rewrite wrap_run in Hrole. apply pure_inv in Hrole as [Hrole ->].
  apply bind_Ok in Hrun as ([raw r] & s0 & Hsplit & Hrun).
  rewrite wrap_run in Hsplit. apply pure_inv in Hsplit as [Hsplit ->].
  cbv zeta in Hrun. simpl fst in Hrun.
  apply bind_Ok in Hrun as (tok & s0 & Hget & Hrun).
  rewrite wrap_run in Hget. apply reads_inv in Hget as [Hget ->].
  unfold services_GetToken in Hget.
  destruct (ProvisioningService s !! raw) as [[tok' ttl]|] eqn:Hrec; simplify_eq.
  destruct (decide (tok_DomainName tok <> nodename)) as [|Hdom%dec_stable];
    [ by apply fail_inv in Hrun as [? _] | ].
  destruct (decide (tok_Role tok <> role)) as [|Hrol%dec_stable];
    [ by apply fail_inv in Hrun as [? _] | ].
  apply bind_Ok in Hrun as ([k pub] & s1 & Hkp & Hrun).
  rewrite wrap_run in Hkp. cbv zeta in Hrun. simpl fst in Hrun. simpl snd in Hrun.
  apply bind_Ok in Hrun as (hostName & s0 & Hhost & Hrun).
  apply gets_inv in Hhost as [Hhost ->]. simplify_eq.
  apply bind_Ok in Hrun as (c & s2 & Hcert & Hrun).
  rewrite wrap_run in Hcert.
  apply bind_Ok in Hrun as ([] & s3 & Hdel & Hrun).
  rewrite wrap_run in Hdel. apply ret_inv in Hrun as [Hkeys ->].
  assert (Hostname s1 = Hostname s) as Hsame.
  { assert (preserves Hostname
              (call (A := bytes * bytes) (CallGenerateKeyPair EmptyString)
                 (Authority_GenerateKeyPair EmptyString))) as Hcall by eauto with frame.
    by eapply Hcall. }
  rewrite Hsame in Hcert. simplify_eq.
  by exists raw, r, tok, ttl, k, pub, s1, c, s2.
Qed.

(** A registration that fails has not touched the provisioning store. *)
Lemma RegisterUsingToken_Err s outputToken nodename role e s' :
  RegisterUsingToken outputToken nodename role s = (Err e, s') ->
  ProvisioningService s' = ProvisioningService s.
Proof.
  unfold RegisterUsingToken. intros Hrun.
  apply bind_Err in Hrun as [Hrun | (u & s0 & Hrole & Hrun)];
    [ rewrite wrap_run in Hrun; by apply pure_inv in Hrun as [_ ->] | ].
  rewrite wrap_run in Hrole. apply pure_inv in Hrole as [_ ->].
  apply bind_Err in Hrun as [Hrun | (tr & s0 & Hsplit & Hrun)];
    [ rewrite wrap_run in Hrun; by apply pure_inv in Hrun as [_ ->] | ].
  rewrite wrap_run in Hsplit. apply pure_inv in Hsplit as [_ ->].
  cbv zeta in Hrun.
  apply bind_Err in Hrun as [Hrun | (tok & s0 & Hget & Hrun)];
    [ rewrite wrap_run in Hrun; by apply reads_inv in Hrun as [_ ->] | ].
  rewrite wrap_run in Hget. apply reads_inv in Hget as [_ ->].
  destruct (decide (tok_DomainName tok <> nodename));
    [ by apply fail_inv in Hrun as [_ ->] | ].
  destruct (decide (tok_Role tok <> role));
    [ by apply fail_inv in Hrun as [_ ->] | ].
  assert (preserves ProvisioningService
            (call (A := bytes * bytes) (CallGenerateKeyPair EmptyString)
               (Authority_GenerateKeyPair EmptyString))) as Hcall
    by eauto with frame.
  apply bind_Err in Hrun as [Hrun | (kp & s1 & Hkp & Hrun)];
    [ rewrite wrap_run in Hrun; by eapply Hcall | ].
  rewrite wrap_run in Hkp. apply Hcall in Hkp. rewrite <- Hkp.
  cbv zeta in Hrun.
  apply bind_Err in Hrun as [Hrun | (hostName & s0 & Hhost & Hrun)];
    [ by apply gets_inv in Hrun as [? _] | ].
  apply gets_inv in Hhost as [_ ->].
  apply bind_Err in Hrun as [Hrun | (c & s2 & Hcert & Hrun)];
    [ rewrite wrap_run in Hrun; by eapply GenerateHostCert_provisioning | ].
  rewrite wrap_run in Hcert.
  apply GenerateHostCert_provisioning in Hcert. rewrite <- Hcert.
  apply bind_Err in Hrun as [Hrun | (u' & s3 & Hdel & Hrun)];
    [ rewrite wrap_run in Hrun; by eapply DeleteToken_Err | ].
  by apply ret_inv in Hrun as [? _].
Qed.

(** When the host certificate cannot be issued, the registration returns
    the error of the issuance. *)
Lemma RegisterUsingToken_cert_failure s outputToken nodename role
    raw r0 tok ttl k pub s1 e s2 :
  Role_Check role = Ok tt ->
  SplitTokenRole outputToken = Ok (raw, r0) ->
  ProvisioningService s !! raw = Some (tok, ttl) ->
  tok_DomainName tok = nodename ->
  tok_Role tok = role ->
  call (CallGenerateKeyPair EmptyString) (Authority_GenerateKeyPair EmptyString) s = (Ok (k, pub), s1) ->
  GenerateHostCert pub (nodename +:+ "." +:+ Hostname s) (Hostname s) role 0 s1
    = (Err e, s2) ->
  RegisterUsingToken outputToken nodename role s = (Err e, s2).
Proof.
  intros Hrole Hsplit Hget Hdom Hrol Hkp Hcert.
  assert (Hostname s1 = Hostname s) as Hsame.
  { assert (preserves Hostname
              (call (A := bytes * bytes) (CallGenerateKeyPair EmptyString)
                 (Authority_GenerateKeyPair EmptyString))) as Hcall by eauto with frame.
    by eapply Hcall. }
  unfold RegisterUsingToken, bind. rewrite wrap_run. unfold pure at 1.
  rewrite Hrole. rewrite wrap_run. unfold pure. rewrite Hsplit.
  rewrite wrap_run. simpl fst.
  unfold ProvisioningService_GetToken, reads, services_GetToken. rewrite Hget.
  destruct (decide (tok_DomainName tok <> nodename)) as [Hne|_]; [ done | ].
  destruct (decide (tok_Role tok <> role)) as [Hne|_]; [ done | ].
  rewrite wrap_run, Hkp. unfold gets. simpl fst. simpl snd.
  rewrite wrap_run, Hsame, Hcert. done.
Qed.

(** C3: a [RegisterUsingToken] call that returns an error, at whatever step,
    leaves the provisioning store as it was.  In particular, when the token
    is accepted, the key pair is generated and the host certificate cannot
    be issued, the call returns the error of the issuance and the token
    record is still in the store.  The store changes only in a call in which
    the certificate has been issued. *)
Theorem failed_registration_keeps_token s outputToken nodename role r s' :
  RegisterUsingToken outputToken nodename role s = (r, s') ->
  (forall e, r = Err e -> ProvisioningService s' = ProvisioningService s) /\
  (forall raw r0 tok ttl k pub s1 e s2,
     Role_Check role = Ok tt ->
     SplitTokenRole outputToken = Ok (raw, r0) ->
     ProvisioningService s !! raw = Some (tok, ttl) ->
     tok_DomainName tok = nodename ->
     tok_Role tok = role ->
     call (CallGenerateKeyPair EmptyString) (Authority_GenerateKeyPair EmptyString) s = (Ok (k, pub), s1) ->
     GenerateHostCert pub (nodename +:+ "." +:+ Hostname s) (Hostname s) role 0 s1
       = (Err e, s2) ->
     r = Err e /\ ProvisioningService s' !! raw = Some (tok, ttl)) /\
  (ProvisioningService s' <> ProvisioningService s ->
   exists k pub s1 c s2,
     call (CallGenerateKeyPair EmptyString) (Authority_GenerateKeyPair EmptyString) s = (Ok (k, pub), s1) /\
     GenerateHostCert pub (nodename +:+ "." +:+ Hostname s) (Hostname s) role 0 s1
       = (Ok c, s2) /\
     r = Ok {| pk_Key := k; pk_Cert := c |}).
Proof.
  intros Hrun. split; [ | split ].
  - intros e ->. by eapply RegisterUsingToken_Err.
  - intros raw r0 tok ttl k pub s1 e s2 Hrole Hsplit Hget Hdom Hrol Hkp Hcert.
    pose proof (RegisterUsingToken_cert_failure _ _ _ _ _ _ _ _ _ _ _ _ _
                  Hrole Hsplit Hget Hdom Hrol Hkp Hcert) as Hfail.
    rewrite Hrun in Hfail. simplify_eq. split; [ done | ].
    by rewrite (RegisterUsingToken_Err _ _ _ _ _ _ Hrun).
  - intros Hchanged. destruct r as [keys|e].
    + apply RegisterUsingToken_Ok in Hrun
        as (raw & r & tok & ttl & k & pub & s1 & c & s2 & _ & _ & _ & _ & _ &
            Hkp & Hcert & _ & ->).
      by exists k, pub, s1, c, s2.
    + destruct Hchanged. by eapply RegisterUsingToken_Err.
Qed.

(** The steps of a successful issuance. *)
Lemma GenerateHostCert_Ok s key hostname authDomain role ttl c s' :
  GenerateHostCert key hostname authDomain role ttl s = (Ok c, s') ->
  exists ca privateKey b,
    CAService s !! (HostCA, Hostname s) = Some ca /\
    FirstSigningKey ca = Ok privateKey /\
    Authority_GenerateHostCert privateKey key hostname authDomain role ttl (authority s)
      = (Ok c, b) /\
    s' = set_authority b
           (CallGenerateHostCert privateKey key hostname authDomain role ttl) s.
Proof.
  unfold GenerateHostCert. intros Hrun.
  apply bind_Ok in Hrun as (hostName & s0 & Hhost & Hrun).
  apply gets_inv in Hhost as [Hhost ->]. simplify_eq.
  apply bind_Ok in Hrun as (ca & s0 & Hca & Hrun).
  rewrite wrap_run in Hca. apply reads_inv in Hca as [Hca ->].
  unfold services_GetCertAuthority in Hca. simpl in Hca.
  destruct (CAService s !! (HostCA, Hostname s)) as [ca'|] eqn:Hget; simplify_eq.
  apply bind_Ok in Hrun as (privateKey & s0 & Hkey & Hrun).
  rewrite wrap_run in Hkey. apply pure_inv in Hkey as [Hkey ->].
  apply call_inv in Hrun as (b & Hsign & ->).
  by exists ca, privateKey, b.
Qed.

(** C6: in every successful [RegisterUsingToken] call the record stored
    under the decoded token is bound to the node name and to the role of
    the call, and the returned certificate is the result of [GenerateHostCert]
    for the public key just generated, the identity
    [nodename + "." + Hostname], the authority domain [Hostname], the role
    of the call and a TTL of zero: it is what the signing backend returns
    for these arguments under the first signing key of the host CA of
    [Hostname], and this request and the key generation are the two calls
    the backend receives. *)
Theorem registration_issues_certificate_for_fqdn s outputToken nodename role keys s' :
  RegisterUsingToken outputToken nodename role s = (Ok keys, s') ->
  exists raw r tok ttl k pub s1 s2 ca privateKey b,
    SplitTokenRole outputToken = Ok (raw, r) /\
    ProvisioningService s !! raw = Some (tok, ttl) /\
    tok_DomainName tok = nodename /\
    tok_Role tok = role /\
    call (CallGenerateKeyPair EmptyString) (Authority_GenerateKeyPair EmptyString) s = (Ok (k, pub), s1) /\
    GenerateHostCert pub (nodename +:+ "." +:+ Hostname s) (Hostname s) role 0 s1
      = (Ok (pk_Cert keys), s2) /\
    pk_Key keys = k /\
    CAService s !! (HostCA, Hostname s) = Some ca /\
    FirstSigningKey ca = Ok privateKey /\
    Authority_GenerateHostCert privateKey pub (nodename +:+ "." +:+ Hostname s)
      (Hostname s) role 0 (authority s1) = (Ok (pk_Cert keys), b) /\
    signing_calls s' =
      (signing_calls s ++
         [CallGenerateKeyPair EmptyString;
          CallGenerateHostCert privateKey pub (nodename +:+ "." +:+ Hostname s)
            (Hostname s) role 0])%list.
Proof.
  intros Hrun.
  apply RegisterUsingToken_Ok in Hrun
    as (raw & r & tok & ttl & k & pub & s1 & c & s2 & _ & Hsplit & Hget & Hdom &
        Hrol & Hkp & Hcert & Hdel & ->).
  pose proof Hcert as Hissue.
  apply GenerateHostCert_Ok in Hissue as (ca & privateKey & b & Hca & Hkey & Hsign & ->).
  pose proof Hkp as Hgen. apply call_inv in Hgen as (b0 & _ & ->).
  exists raw, r, tok, ttl, k, pub, (set_authority b0 (CallGenerateKeyPair EmptyString) s),
    (set_authority b
       (CallGenerateHostCert privateKey pub (nodename +:+ "." +:+ Hostname s)
          (Hostname s) role 0)
       (set_authority b0 (CallGenerateKeyPair EmptyString) s)), ca, privateKey, b.
  repeat split; try done.
  assert (preserves signing_calls (DeleteToken outputToken)) as Hpres
    by (apply preserves_DeleteToken; reflexivity).
  rewrite (Hpres _ _ _ Hdel). simpl. by rewrite <- app_assoc.
Qed.

(** C7: when the CA of the local domain has no signing key,
    [GenerateHostCert] and [GenerateUserCert] return the NotFound error
    "no signing key available" and the server is left as it was: the state
    of the signing backend and the history of the calls made to it are
    unchanged, no call has been made. *)
Theorem no_signing_key_no_certificate s key hostname authDomain role username ttl :
  (forall ca, CAService s !! (HostCA, Hostname s) = Some ca ->
              ca_SigningKeys ca = [] ->
     let run := GenerateHostCert key hostname authDomain role ttl s in
     run = (Err (NotFound "no signing key available"), s) /\
     signing_calls run.2 = signing_calls s /\ authority run.2 = authority s) /\
  (forall ca, CAService s !! (UserCA, Hostname s) = Some ca ->
              ca_SigningKeys ca = [] ->
     let run := GenerateUserCert key username ttl s in
     run = (Err (NotFound "no signing key available"), s) /\
     signing_calls run.2 = signing_calls s /\ authority run.2 = authority s).
Proof.
  split; intros ca Hca Hkeys run; subst run.
  - assert (GenerateHostCert key hostname authDomain role ttl s
            = (Err (NotFound "no signing key available"), s)) as ->; [ | done ].
    unfold GenerateHostCert, bind, gets. rewrite wrap_run.
    unfold CAService_GetCertAuthority, reads, services_GetCertAuthority. simpl.
    rewrite Hca. rewrite wrap_run. unfold pure, FirstSigningKey. by rewrite Hkeys.
  - assert (GenerateUserCert key username ttl s
            = (Err (NotFound "no signing key available"), s)) as ->; [ | done ].
    unfold GenerateUserCert, bind, gets. rewrite wrap_run.
    unfold CAService_GetCertAuthority, reads, services_GetCertAuthority. simpl.
    rewrite Hca. rewrite wrap_run. unfold pure, FirstSigningKey. by rewrite Hkeys.
Qed.

(** C8: [ValidateToken] returns the server as it received it, on success
    and on error, so the token record is neither deleted nor modified.  Its
    outcome is fixed by the decoding of the output token, by the record
    stored under the decoded token and by the comparison of the record's
    domain name with [domainName]: no other name takes part in it. *)
Theorem validation_is_read_only s token domainName :
  (ValidateToken token domainName s).2 = s /\
  (ValidateToken token domainName s).1 =
    match SplitTokenRole token with
    | Err e => Err e
    | Ok (raw, _) =>
        match ProvisioningService s !! raw with
        | None => Err (NotFound "provisioning token not found")
        | Some (tok, _) =>
            if decide (tok_DomainName tok = domainName)
            then Ok (tok_Role tok)
            else Err (Errorf "domainName does not match")
        end
    end.
Proof.
  unfold ValidateToken, bind. rewrite wrap_run. unfold pure.
  destruct (SplitTokenRole token) as [[raw r]|e]; [ | done ].
  rewrite wrap_run. cbn [fst snd].
  unfold ProvisioningService_GetToken, reads, services_GetToken.
  destruct (ProvisioningService s !! raw) as [[tok ttl]|]; [ | done ].
  destruct (decide (tok_DomainName tok <> domainName)) as [Hne|Heq%dec_stable].
  - by rewrite decide_False.
  - by rewrite decide_True.
Qed.

(** ** Issuing a token *)

Ltac proj_simpl :=
  cbn [clock authority signing_calls Hostname CAService ProvisioningService
       WebService BkKeysService entropy set_clock set_authority
       set_ProvisioningService set_WebService set_BkKeysService set_entropy
       web_sessions web_users fst snd] in *.

(** The steps of a successful [GenerateToken]. *)
Lemma GenerateToken_Ok s nodeName role ttl outputToken s' :
  GenerateToken nodeName role ttl s = (Ok outputToken, s') ->
  IsValidDomainName nodeName = true /\
  Role_Check role = Ok tt /\
  (TokenLenBytes <= length (entropy s))%nat /\
  JoinTokenRole (EncodeToString (take TokenLenBytes (entropy s))) role
    = Ok outputToken /\
  s' = set_ProvisioningService
         (<[EncodeToString (take TokenLenBytes (entropy s)) :=
              ({| tok_DomainName := nodeName; tok_Role := role |}, ttl)]>
            (ProvisioningService s))
         (set_entropy (drop TokenLenBytes (entropy s)) s).
Proof.
  unfold GenerateToken. intros Hrun.
  destruct (IsValidDomainName nodeName) eqn:Hname; simpl negb in Hrun; cbv iota in Hrun;
    [ | by apply fail_inv in Hrun as [? _] ].
  apply bind_Ok in Hrun as ([] & s0 & Hrole & Hrun).
  rewrite wrap_run in Hrole. apply pure_inv in Hrole as [Hrole ->].
  apply bind_Ok in Hrun as (tk & s1 & Hrand & Hrun).
  rewrite wrap_run in Hrand. apply CryptoRandomHex_Ok in Hrand as (Hlen & -> & ->).
  apply bind_Ok in Hrun as (out & s0 & Hjoin & Hrun).
  apply pure_inv in Hjoin as [Hjoin ->].
  apply bind_Ok in Hrun as ([] & s2 & Hput & Hrun).
  apply ret_inv in Hrun as [Hout ->]. simplify_eq.
  unfold ProvisioningService_UpsertToken, services_UpsertToken in Hput.
  proj_simpl. by simplify_eq.
Qed.

(** C5: when [SplitTokenRole] decodes what [JoinTokenRole] encodes, a
    successful [GenerateToken] for a node name and a role, followed by
    [ValidateToken] on the returned output token with that node name as
    domain name, returns the role given to [GenerateToken]. *)
Theorem generated_token_validates s nodeName role ttl outputToken s' :
  (forall token out, JoinTokenRole token role = Ok out ->
                     exists r, SplitTokenRole out = Ok (token, r)) ->
  GenerateToken nodeName role ttl s = (Ok outputToken, s') ->
  ValidateToken outputToken nodeName s' = (Ok role, s').
Proof.
  intros Hroundtrip Hgen.
  apply GenerateToken_Ok in Hgen as (_ & _ & _ & Hjoin & ->).
  destruct (Hroundtrip _ _ Hjoin) as [r Hsplit].
  unfold ValidateToken, bind. rewrite wrap_run. unfold pure. rewrite Hsplit.
  rewrite wrap_run. cbn [fst].
  unfold ProvisioningService_GetToken, reads, services_GetToken. proj_simpl.
  rewrite lookup_insert_eq. cbn [tok_DomainName tok_Role].
  by rewrite decide_False by (intros Hne; by apply Hne).
Qed.

(** ** Web sessions *)

(** The steps of a successful [NewWebSession]. *)
Lemma NewWebSession_Ok s userName sess s' :
  NewWebSession userName s = (Ok sess, s') ->
  exists priv pub b1 ca privateKey cert b2 user,
    (WebSessionTokenLenBytes <= length (entropy s))%nat /\
    (WebSessionTokenLenBytes <= length (drop WebSessionTokenLenBytes (entropy s)))%nat /\
    Authority_GetNewKeyPairFromPool (authority s) = (Ok (priv, pub), b1) /\
    CAService s !! (UserCA, Hostname s) = Some ca /\
    FirstSigningKey ca = Ok privateKey /\
    Authority_GenerateUserCert privateKey pub userName WebSessionTTL b1 = (Ok cert, b2) /\
    web_users (WebService s) !! userName = Some user /\
    entropy s' = drop WebSessionTokenLenBytes (drop WebSessionTokenLenBytes (entropy s)) /\
    sess = {| sess_ID := EncodeToString (take WebSessionTokenLenBytes (entropy s));
              sess_User := user;
              WS := {| Priv := priv;
                       Pub := cert;
                       Expires := Time_Add (Time_UTC (Now (clock s)).1) WebSessionTTL;
                       BearerToken :=
                         EncodeToString
                           (take WebSessionTokenLenBytes
                              (drop WebSessionTokenLenBytes (entropy s))) |} |}.
Proof.
  unfold NewWebSession. intros Hrun.
  apply bind_Ok in Hrun as (token & s1 & Hrand & Hrun).
  rewrite wrap_run in Hrand. apply CryptoRandomHex_Ok in Hrand as (Hlen1 & -> & ->).
  apply bind_Ok in Hrun as (bearer & s1 & Hrand & Hrun).
  rewrite wrap_run in Hrand. apply CryptoRandomHex_Ok in Hrand as (Hlen2 & -> & ->).
  apply bind_Ok in Hrun as ([priv pub] & s1 & Hpool & Hrun).
  apply call_inv in Hpool as (b1 & Hpool & ->). cbv zeta in Hrun.
  apply bind_Ok in Hrun as (hostName & s1 & Hhost & Hrun).
  apply gets_inv in Hhost as [Hhost ->]. simplify_eq.
  apply bind_Ok in Hrun as (ca & s1 & Hca & Hrun).
  rewrite wrap_run in Hca. apply reads_inv in Hca as [Hca ->].
  unfold services_GetCertAuthority in Hca. proj_simpl. cbn [id_Type id_DomainName] in Hca.
  destruct (CAService s !! (UserCA, Hostname s)) as [ca'|] eqn:Hget; simplify_eq.
  apply bind_Ok in Hrun as (privateKey & s1 & Hkey & Hrun).
  rewrite wrap_run in Hkey. apply pure_inv in Hkey as [Hkey ->].
  apply bind_Ok in Hrun as (cert & s1 & Hsign & Hrun).
  apply call_inv in Hsign as (b2 & Hsign & ->). proj_simpl.
  apply bind_Ok in Hrun as (user & s1 & Huser & Hrun).
  rewrite wrap_run in Huser. apply reads_inv in Huser as [Huser ->].
  unfold services_GetUser in Huser. proj_simpl.
  destruct (web_users (WebService s) !! userName) as [user'|] eqn:Hu; simplify_eq.
  apply bind_Ok in Hrun as (now & s1 & Hnow & Hrun).
  apply clock_Now_inv in Hnow as [Hnow ->]. proj_simpl. simplify_eq.
  apply ret_inv in Hrun as [Hsess ->]. simplify_eq. proj_simpl.
  by exists priv, pub, b1, ca, privateKey, cert, b2, user.
Qed.

(** C9: a successful [NewWebSession] returns a session that expires at the
    instant the server clock shows, taken in UTC, plus [WebSessionTTL], which
    is 10 minutes (600000000000 ns).  The session ID and the bearer token are
    the hex encodings of two successive reads of 32 bytes from the random
    source; the token of [GenerateToken] is the hex encoding of a read of 16
    bytes. *)
Theorem new_session_expiry_and_token_lengths s :
  (forall userName sess s',
     NewWebSession userName s = (Ok sess, s') ->
     Expires (WS sess) = Time_Add (Time_UTC (Now (clock s)).1) WebSessionTTL /\
     unixNano (Expires (WS sess)) = unixNano (Now (clock s)).1 + 10 * 60 * 1000000000 /\
     location (Expires (WS sess)) = UTCLocation /\
     exists id bearer : bytes,
       length id = 32%nat /\ length bearer = 32%nat /\
       sess_ID sess = EncodeToString id /\
       BearerToken (WS sess) = EncodeToString bearer /\
       entropy s = (id ++ bearer ++ entropy s')%list) /\
  (forall nodeName role ttl outputToken s',
     GenerateToken nodeName role ttl s = (Ok outputToken, s') ->
     exists raw : bytes,
       length raw = 16%nat /\
       JoinTokenRole (EncodeToString raw) role = Ok outputToken /\
       ProvisioningService s' !! EncodeToString raw
         = Some ({| tok_DomainName := nodeName; tok_Role := role |}, ttl) /\
       entropy s = (raw ++ entropy s')%list) /\
  WebSessionTTL = 10 * Minute /\
  Minute = 60 * 1000000000 /\
  WebSessionTokenLenBytes = 32%nat /\
  TokenLenBytes = 16%nat.
Proof.
  split; [ | split ]; [ | | done ].
  - intros userName sess s' Hrun.
    apply NewWebSession_Ok in Hrun
      as (priv & pub & b1 & ca & privateKey & cert & b2 & user & Hlen1 & Hlen2 &
          _ & _ & _ & _ & _ & Hrest & ->).
    cbn [WS Expires sess_ID BearerToken]. repeat split.
    exists (take WebSessionTokenLenBytes (entropy s)),
      (take WebSessionTokenLenBytes (drop WebSessionTokenLenBytes (entropy s))).
    rewrite Hrest, !length_take, !take_drop.
    unfold WebSessionTokenLenBytes in *. repeat split; lia.
  - intros nodeName role ttl outputToken s' Hrun.
    apply GenerateToken_Ok in Hrun as (_ & _ & Hlen & Hjoin & ->).
    exists (take TokenLenBytes (entropy s)). proj_simpl.
    rewrite length_take, take_drop, lookup_insert_eq.
    unfold TokenLenBytes in *. repeat split; [ lia | done ].
Qed.


Lemma GetWebSession_run s userName id ws ttl user :
  web_sessions (WebService s) !! (userName, id) = Some (ws, ttl) ->
  web_users (WebService s) !! userName = Some user ->
  GetWebSession userName id s
    = (Ok {| sess_ID := id; sess_User := user; WS := ws |}, s).
Proof.
  intros Hws Huser. unfold GetWebSession, bind. rewrite wrap_run.
  unfold WebService_GetWebSession, reads, services_GetWebSession. rewrite Hws.
  rewrite wrap_run. unfold GetUser, reads, services_GetUser. by rewrite Huser.
Qed.

(** The steps of a successful [GetWebSessionInfo]. *)
Lemma GetWebSessionInfo_Ok s userName id sess s' :
  GetWebSessionInfo userName id s = (Ok sess, s') ->
  exists ws ttl user,
    web_sessions (WebService s) !! (userName, id) = Some (ws, ttl) /\
    web_users (WebService s) !! userName = Some user /\
    sess = {| sess_ID := id; sess_User := user; WS := WebSession_clear_Priv ws |} /\
    s' = s.
Proof.
  unfold GetWebSessionInfo. intros Hrun.
  apply bind_Ok in Hrun as (ws & s1 & Hws & Hrun).
  rewrite wrap_run in Hws. apply reads_inv in Hws as [Hws ->].
  unfold services_GetWebSession in Hws.
  destruct (web_sessions (WebService s) !! (userName, id)) as [[ws' ttl]|] eqn:Hget;
    simplify_eq.
  apply bind_Ok in Hrun as (user & s1 & Huser & Hrun).
  rewrite wrap_run in Huser. apply reads_inv in Huser as [Huser ->].
  unfold services_GetUser in Huser.
  destruct (web_users (WebService s) !! userName) as [user'|] eqn:Hu; simplify_eq.
  apply ret_inv in Hrun as [Hsess ->]. simplify_eq.
  by exists ws, ttl, user.
Qed.

(** What [SignIn] and [CreateWebSession] do once the caller is accepted: a
    new session is made, stored with its private key under its ID, and
    returned without the key. *)
Lemma store_and_redact_Ok s user sess s' :
  bind (wrap (NewWebSession user))
    (fun sess0 =>
       bind (wrap (UpsertWebSession user sess0 WebSessionTTL))
         (fun _ => ret (Session_clear_Priv sess0))) s = (Ok sess, s') ->
  exists sess0 s1,
    NewWebSession user s = (Ok sess0, s1) /\
    sess = Session_clear_Priv sess0 /\
    s' = set_WebService
           {| web_sessions :=
                <[(user, sess_ID sess0) := (WS sess0, WebSessionTTL)]>
                  (web_sessions (WebService s1));
              web_users := web_users (WebService s1) |} s1.
Proof.
  intros Hrun.
  apply bind_Ok in Hrun as (sess0 & s1 & Hnew & Hrun).
  rewrite wrap_run in Hnew.
  apply bind_Ok in Hrun as ([] & s2 & Hput & Hrun).
  rewrite wrap_run in Hput.
  apply ret_inv in Hrun as [Hsess ->]. simplify_eq.
  unfold UpsertWebSession, WebService_UpsertWebSession, services_UpsertWebSession in Hput.
  simplify_eq. by exists sess0, s1.
Qed.

(** C2: the session returned by a successful [GetWebSessionInfo], [SignIn]
    or [CreateWebSession] has an empty private key, whatever key the stored
    session holds: the returned session is the stored one with its private
    key cleared, and the store keeps the key. *)
Theorem returned_sessions_have_no_private_key s sess s' :
  (forall userName id,
     GetWebSessionInfo userName id s = (Ok sess, s') ->
     Priv (WS sess) = [] /\
     exists ws ttl,
       web_sessions (WebService s') !! (userName, sess_ID sess) = Some (ws, ttl) /\
       WS sess = WebSession_clear_Priv ws) /\
  (forall user password,
     SignIn user password s = (Ok sess, s') ->
     Priv (WS sess) = [] /\
     exists ws ttl,
       web_sessions (WebService s') !! (user, sess_ID sess) = Some (ws, ttl) /\
       WS sess = WebSession_clear_Priv ws) /\
  (forall user prevSessionID,
     CreateWebSession user prevSessionID s = (Ok sess, s') ->
     Priv (WS sess) = [] /\
     exists ws ttl,
       web_sessions (WebService s') !! (user, sess_ID sess) = Some (ws, ttl) /\
       WS sess = WebSession_clear_Priv ws).
Proof.
  split; [ | split ].
  - intros userName id Hrun.
    apply GetWebSessionInfo_Ok in Hrun as (ws & ttl & user & Hws & _ & -> & ->).
    split; [ done | ]. by exists ws, ttl.
  - intros user password Hrun. unfold SignIn in Hrun.
    apply bind_Ok in Hrun as ([] & s0 & _ & Hrun). cbv zeta in Hrun.
    apply store_and_redact_Ok in Hrun as (sess0 & s1 & _ & -> & ->).
    split; [ done | ]. exists (WS sess0), WebSessionTTL. proj_simpl.
    split; [ apply lookup_insert_eq | done ].
  - intros user prevSessionID Hrun. unfold CreateWebSession in Hrun.
    apply bind_Ok in Hrun as (prev & s0 & _ & Hrun). cbv zeta in Hrun.
    apply store_and_redact_Ok in Hrun as (sess0 & s1 & _ & -> & ->).
    split; [ done | ]. exists (WS sess0), WebSessionTTL. proj_simpl.
    split; [ apply lookup_insert_eq | done ].
Qed.


(** ** Registration of a peer authority *)

(** A peer registration that is accepted and then finds no local sign key
    returns an error after it has deleted the token and stored the seal
    key. *)
Lemma RegisterNewAuthServer_without_sign_key s domainName outputToken publicSealKey
    raw r tok ttl :
  SplitTokenRole outputToken = Ok (raw, r) ->
  ProvisioningService s !! raw = Some (tok, ttl) ->
  tok_DomainName tok = domainName ->
  tok_Role tok = RoleAuth ->
  bk_signKey (BkKeysService s) = None ->
  RegisterNewAuthServer domainName outputToken publicSealKey s =
    (Err (NotFound "sign key not found"),
     set_BkKeysService
       {| bk_sealKeys := bk_sealKeys (BkKeysService s) ++ [publicSealKey];
          bk_signKey := bk_signKey (BkKeysService s) |}
       (set_ProvisioningService (delete raw (ProvisioningService s)) s)).
Proof.
  intros Hsplit Hget Hdom Hrol Hkey.
  unfold RegisterNewAuthServer, bind. rewrite wrap_run. unfold pure at 1.
  rewrite Hsplit. rewrite wrap_run. cbn [fst].
  unfold ProvisioningService_GetToken, reads, services_GetToken. rewrite Hget.
  destruct (decide (tok_DomainName tok <> domainName)) as [Hne|_]; [ done | ].
  destruct (decide (tok_Role tok <> RoleAuth)) as [Hne|_]; [ done | ].
  rewrite wrap_run. unfold DeleteToken, bind, pure. rewrite Hsplit. cbn [fst].
  unfold ProvisioningService_DeleteToken, services_DeleteToken. rewrite Hget.
  rewrite wrap_run.
  unfold BkKeysService_AddSealKey, services_AddSealKey.
  rewrite wrap_run.
  unfold BkKeysService_GetSignKey, services_GetSignKey. proj_simpl.
  cbn [bk_signKey]. by rewrite Hkey.
Qed.

(** * Further properties *)

(** ** Join tokens, step by step *)

Lemma ValidateToken_run s outputToken domainName raw r tok ttl :
  SplitTokenRole outputToken = Ok (raw, r) ->
  ProvisioningService s !! raw = Some (tok, ttl) ->
  ValidateToken outputToken domainName s =
    (if decide (tok_DomainName tok = domainName)
     then Ok (tok_Role tok)
     else Err (Errorf "domainName does not match"), s).
Proof.
  intros Hsplit Hget. unfold ValidateToken, bind. rewrite wrap_run.
  unfold pure. rewrite Hsplit. rewrite wrap_run. cbn [fst].
  unfold ProvisioningService_GetToken, reads, services_GetToken. rewrite Hget.
  destruct (decide (tok_DomainName tok <> domainName)) as [Hne|Heq%dec_stable].
  - by rewrite decide_False.
  - by rewrite decide_True.
Qed.

Lemma DeleteToken_run s outputToken raw r rec :
  SplitTokenRole outputToken = Ok (raw, r) ->
  ProvisioningService s !! raw = Some rec ->
  DeleteToken outputToken s =
    (Ok tt, set_ProvisioningService (delete raw (ProvisioningService s)) s).
Proof.
  intros Hsplit Hget. unfold DeleteToken, bind, pure. rewrite Hsplit. cbn [fst].
  unfold ProvisioningService_DeleteToken, services_DeleteToken. by rewrite Hget.
Qed.

Lemma DeleteToken_Ok s outputToken u s' :
  DeleteToken outputToken s = (Ok u, s') ->
  exists raw r rec,
    SplitTokenRole outputToken = Ok (raw, r) /\
    ProvisioningService s !! raw = Some rec /\
    s' = set_ProvisioningService (delete raw (ProvisioningService s)) s.
Proof.
  unfold DeleteToken. intros Hrun.
  apply bind_Ok in Hrun as ([raw r] & s0 & Hsplit & Hrun).
  apply pure_inv in Hsplit as [Hsplit ->]. cbn [fst] in Hrun.
  unfold ProvisioningService_DeleteToken, services_DeleteToken in Hrun.
  destruct (ProvisioningService s !! raw) as [rec|] eqn:Hget; simplify_eq.
  by exists raw, r, rec.
Qed.

(** A registration whose every step succeeds. *)
Lemma RegisterUsingToken_run s outputToken nodename role raw r0 tok ttl k pub s1 c s2 :
  Role_Check role = Ok tt ->
  SplitTokenRole outputToken = Ok (raw, r0) ->
  ProvisioningService s !! raw = Some (tok, ttl) ->
  tok_DomainName tok = nodename ->
  tok_Role tok = role ->
  call (CallGenerateKeyPair EmptyString) (Authority_GenerateKeyPair EmptyString) s
    = (Ok (k, pub), s1) ->
  GenerateHostCert pub (nodename +:+ "." +:+ Hostname s) (Hostname s) role 0 s1
    = (Ok c, s2) ->
  RegisterUsingToken outputToken nodename role s =
    (Ok {| pk_Key := k; pk_Cert := c |},
     set_ProvisioningService (delete raw (ProvisioningService s2)) s2).
Proof.
  intros Hrole Hsplit Hget Hdom Hrol Hkp Hcert.
  assert (preserves Hostname
            (call (A := bytes * bytes) (CallGenerateKeyPair EmptyString)
               (Authority_GenerateKeyPair EmptyString))) as Hcall1 by eauto with frame.
  assert (preserves ProvisioningService
            (call (A := bytes * bytes) (CallGenerateKeyPair EmptyString)
               (Authority_GenerateKeyPair EmptyString))) as Hcall2 by eauto with frame.
  pose proof (Hcall1 _ _ _ Hkp) as Hsame.
  assert (ProvisioningService s2 !! raw = Some (tok, ttl)) as Hget2.
  { rewrite (GenerateHostCert_provisioning _ _ _ _ _ _ _ _ Hcert).
    by rewrite (Hcall2 _ _ _ Hkp). }
  unfold RegisterUsingToken, bind. rewrite wrap_run. unfold pure at 1.
  rewrite Hrole. rewrite wrap_run. unfold pure. rewrite Hsplit.
  rewrite wrap_run. simpl fst.
  unfold ProvisioningService_GetToken, reads, services_GetToken. rewrite Hget.
  destruct (decide (tok_DomainName tok <> nodename)) as [Hne|_]; [ done | ].
  destruct (decide (tok_Role tok <> role)) as [Hne|_]; [ done | ].
  rewrite wrap_run, Hkp. unfold gets. simpl fst. simpl snd.
  rewrite wrap_run, Hsame, Hcert.
  rewrite wrap_run, (DeleteToken_run _ _ _ _ _ Hsplit Hget2). done.
Qed.

(** X1: [GenerateToken] refuses a node name that is not a valid domain name
    with a BadParameter error for "nodeName", and a role that fails its
    check with the error of the check; in both cases the server is left as
    it was, no randomness is read.  When the random source fails, or when
    [JoinTokenRole] fails on the token drawn, the error is returned and no
    token has been stored: the provisioning store is as before. *)
Theorem token_generation_rejects_without_effect s nodeName role ttl :
  (IsValidDomainName nodeName = false ->
   GenerateToken nodeName role ttl s =
     (Err (BadParameter "nodeName" ("'" +:+ nodeName +:+ "' is not a valid dns name")),
      s)) /\
  (forall e, IsValidDomainName nodeName = true -> Role_Check role = Err e ->
             GenerateToken nodeName role ttl s = (Err e, s)) /\
  (forall e s1,
     IsValidDomainName nodeName = true -> Role_Check role = Ok tt ->
     utils_CryptoRandomHex TokenLenBytes s = (Err e, s1) ->
     GenerateToken nodeName role ttl s = (Err e, s1) /\
     ProvisioningService s1 = ProvisioningService s) /\
  (forall token s1 e,
     IsValidDomainName nodeName = true -> Role_Check role = Ok tt ->
     utils_CryptoRandomHex TokenLenBytes s = (Ok token, s1) ->
     JoinTokenRole token role = Err e ->
     GenerateToken nodeName role ttl s = (Err e, s1) /\
     ProvisioningService s1 = ProvisioningService s).
Proof.
  assert (preserves ProvisioningService (utils_CryptoRandomHex TokenLenBytes))
    as Hrand by eauto with frame.
  split; [ | split; [ | split ] ].
  - intros Hname. unfold GenerateToken. by rewrite Hname.
  - intros e Hname Hrole. unfold GenerateToken. rewrite Hname. cbn [negb].
    unfold bind. rewrite wrap_run. unfold pure at 1. by rewrite Hrole.
  - intros e s1 Hname Hrole Hdraw. split; [ | by eapply Hrand ].
    unfold GenerateToken. rewrite Hname. cbn [negb].
    unfold bind. rewrite wrap_run. unfold pure at 1. rewrite Hrole.
    by rewrite wrap_run, Hdraw.
  - intros token s1 e Hname Hrole Hdraw Hjoin. split; [ | by eapply Hrand ].
    unfold GenerateToken. rewrite Hname. cbn [negb].
    unfold bind. rewrite wrap_run. unfold pure at 1. rewrite Hrole.
    rewrite wrap_run, Hdraw. unfold pure. by rewrite Hjoin.
Qed.


(** X3: a successful [RegisterUsingToken] consumes the token: the
    provisioning store afterwards is the store before without the record of
    the decoded token, so [ValidateToken] and a second [RegisterUsingToken]
    on the same output token end with NotFound; the other directory services
    are as before. *)
Theorem registration_consumes_token s outputToken nodename role keys s' :
  RegisterUsingToken outputToken nodename role s = (Ok keys, s') ->
  exists raw r,
    SplitTokenRole outputToken = Ok (raw, r) /\
    ProvisioningService s' = delete raw (ProvisioningService s) /\
    (forall domainName,
       ValidateToken outputToken domainName s'
         = (Err (NotFound "provisioning token not found"), s')) /\
    RegisterUsingToken outputToken nodename role s'
      = (Err (NotFound "provisioning token not found"), s') /\
    CAService s' = CAService s /\ WebService s' = WebService s /\
    BkKeysService s' = BkKeysService s.
Proof.
  intros Hrun.
  apply RegisterUsingToken_Ok in Hrun
    as (raw & r & tok & ttl & k & pub & s1 & c & s2 & Hrole & Hsplit & Hget & _ & _ &
        Hkp & Hcert & Hdel & _).
  apply DeleteToken_Ok in Hdel as (raw' & r' & rec & Hsplit' & _ & ->).
  rewrite Hsplit in Hsplit'. simplify_eq.
  assert (forall X (f : AuthServer B C -> X),
            (forall b c0 s0, f (set_authority b c0 s0) = f s0) -> f s2 = f s) as Hframe.
  { intros X f Hf.
    assert (preserves f (call (A := bytes * bytes) (CallGenerateKeyPair EmptyString)
                           (Authority_GenerateKeyPair EmptyString))) as Hpres1
      by (apply preserves_call; intros; apply Hf).
    assert (preserves f (GenerateHostCert pub (nodename +:+ "." +:+ Hostname s)
                           (Hostname s) role 0)) as Hpres2.
    { unfold GenerateHostCert.
      apply preserves_bind; [ apply preserves_gets | intros hostName ].
      apply preserves_bind; [ apply preserves_wrap, preserves_reads | intros ca ].
      apply preserves_bind; [ apply preserves_wrap, preserves_pure | intros pk ].
      apply preserves_call; intros; apply Hf. }
    rewrite (Hpres2 _ _ _ Hcert). by rewrite (Hpres1 _ _ _ Hkp). }
  exists raw', r'. proj_simpl.
  assert (ProvisioningService s2 = ProvisioningService s) as -> by (by apply Hframe).
  split; [ done | ]. split; [ done | ].
  split; [ | split ].
  - intros domainName. eapply ValidateToken_missing; [ done | ].
    proj_simpl. apply lookup_delete_eq.
  - eapply RegisterUsingToken_missing; [ done | done | ].
    proj_simpl. apply lookup_delete_eq.
  - repeat split; by apply Hframe.
Qed.

(** X4: a registration only succeeds with a token that validates: when
    [RegisterUsingToken] succeeds for a node name and a role, [ValidateToken]
    on the same state with that node name as domain name returns that
    role. *)
Theorem registered_token_validates s outputToken nodename role keys s' :
  RegisterUsingToken outputToken nodename role s = (Ok keys, s') ->
  ValidateToken outputToken nodename s = (Ok role, s).
Proof.
  intros Hrun.
  apply RegisterUsingToken_Ok in Hrun
    as (raw & r & tok & ttl & k & pub & s1 & c & s2 & _ & Hsplit & Hget & Hdom & Hrol & _).
  rewrite (ValidateToken_run _ _ _ _ _ _ _ Hsplit Hget).
  rewrite decide_True by done. by rewrite Hrol.
Qed.

(** Run [RegisterUsingToken] up to its comparisons with the stored record. *)
Ltac run_to_comparisons Hrole Hsplit Hget :=
  unfold RegisterUsingToken, bind; rewrite wrap_run; unfold pure at 1;
  rewrite Hrole; rewrite wrap_run; unfold pure; rewrite Hsplit;
  rewrite wrap_run; simpl fst;
  unfold ProvisioningService_GetToken, reads, services_GetToken; rewrite Hget.

(** X5: [RegisterUsingToken] compares the stored record before it asks for
    any key: a record bound to another name gives a BadParameter error for
    "domainName", a record bound to the name and to another role gives a
    BadParameter error for "token.Role", and in both cases the server is
    left as it was: the token is kept and the signing backend receives no
    call. *)
Theorem registration_refuses_mismatch s outputToken nodename role raw r tok ttl :
  Role_Check role = Ok tt ->
  SplitTokenRole outputToken = Ok (raw, r) ->
  ProvisioningService s !! raw = Some (tok, ttl) ->
  (tok_DomainName tok <> nodename ->
   RegisterUsingToken outputToken nodename role s =
     (Err (BadParameter "domainName" "domainName does not match"), s)) /\
  (tok_DomainName tok = nodename -> tok_Role tok <> role ->
   RegisterUsingToken outputToken nodename role s =
     (Err (BadParameter "token.Role" "role does not match"), s)).
Proof.
  intros Hrole Hsplit Hget.
  split; [ intros Hne | intros Heq Hne ]; run_to_comparisons Hrole Hsplit Hget.
  - by rewrite decide_True.
  - rewrite decide_False by (intros Hn; by apply Hn). by rewrite decide_True.
Qed.

(** X6: only the token decoded from an output token counts, the role tag
    decoded with it is never used: two output tokens that decode to the same
    token are treated alike by [ValidateToken], [RegisterUsingToken],
    [DeleteToken] and [RegisterNewAuthServer]. *)
Theorem role_tag_is_ignored s t1 t2 raw r1 r2 :
  SplitTokenRole t1 = Ok (raw, r1) ->
  SplitTokenRole t2 = Ok (raw, r2) ->
  (forall domainName, ValidateToken t1 domainName s = ValidateToken t2 domainName s) /\
  (forall nodename role,
     RegisterUsingToken t1 nodename role s = RegisterUsingToken t2 nodename role s) /\
  DeleteToken t1 s = DeleteToken t2 s /\
  (forall domainName key,
     RegisterNewAuthServer domainName t1 key s = RegisterNewAuthServer domainName t2 key s).
Proof.
  intros Hs1 Hs2. repeat split; intros.
  - unfold ValidateToken, bind, wrap, pure. by rewrite Hs1, Hs2.
  - unfold RegisterUsingToken, DeleteToken, bind, wrap, pure. by rewrite Hs1, Hs2.
  - unfold DeleteToken, bind, wrap, pure. by rewrite Hs1, Hs2.
  - unfold RegisterNewAuthServer, DeleteToken, bind, wrap, pure. by rewrite Hs1, Hs2.
Qed.

(** ** Registration of a peer authority, step by step *)

(** X7: [RegisterNewAuthServer] refuses with AccessDenied a token bound to
    another domain name, and a token bound to the domain name and to a role
    other than [RoleAuth]; a token without a record gives NotFound.  In the
    three cases the server is left as it was: the token is not deleted and
    the seal key is not stored. *)
Theorem peer_registration_refuses_mismatch s domainName outputToken publicSealKey raw r :
  SplitTokenRole outputToken = Ok (raw, r) ->
  (ProvisioningService s !! raw = None ->
   RegisterNewAuthServer domainName outputToken publicSealKey s =
     (Err (NotFound "provisioning token not found"), s)) /\
  (forall tok ttl,
     ProvisioningService s !! raw = Some (tok, ttl) ->
     tok_DomainName tok <> domainName ->
     RegisterNewAuthServer domainName outputToken publicSealKey s =
       (Err (AccessDenied "domainName does not match"), s)) /\
  (forall tok ttl,
     ProvisioningService s !! raw = Some (tok, ttl) ->
     tok_DomainName tok = domainName ->
     tok_Role tok <> RoleAuth ->
     RegisterNewAuthServer domainName outputToken publicSealKey s =
       (Err (AccessDenied "role does not match"), s)).
Proof.
  intros Hsplit.
  split; [ intros Hget | split; [ intros tok ttl Hget Hne | intros tok ttl Hget Heq Hne ] ];
    unfold RegisterNewAuthServer, bind; rewrite wrap_run; unfold pure at 1;
    rewrite Hsplit; rewrite wrap_run; cbn [fst];
    unfold ProvisioningService_GetToken, reads, services_GetToken; rewrite Hget.
  - done.
  - by rewrite decide_True.
  - rewrite decide_False by (intros Hn; by apply Hn). by rewrite decide_True.
Qed.

(** The steps of a successful peer registration. *)
Lemma RegisterNewAuthServer_Ok s domainName outputToken publicSealKey k s' :
  RegisterNewAuthServer domainName outputToken publicSealKey s = (Ok k, s') ->
  exists raw r tok ttl localKey,
    SplitTokenRole outputToken = Ok (raw, r) /\
    ProvisioningService s !! raw = Some (tok, ttl) /\
    tok_DomainName tok = domainName /\
    tok_Role tok = RoleAuth /\
    bk_signKey (BkKeysService s) = Some localKey /\
    k = Key_Public localKey /\
    s' = set_BkKeysService
           {| bk_sealKeys := bk_sealKeys (BkKeysService s) ++ [publicSealKey];
              bk_signKey := bk_signKey (BkKeysService s) |}
           (set_ProvisioningService (delete raw (ProvisioningService s)) s).
Proof.
  unfold RegisterNewAuthServer. intros Hrun.
  apply bind_Ok in Hrun as ([raw r] & s0 & Hsplit & Hrun).
  rewrite wrap_run in Hsplit. apply pure_inv in Hsplit as [Hsplit ->].
  cbv zeta in Hrun. cbn [fst] in Hrun.
  apply bind_Ok in Hrun as (tok & s0 & Hget & Hrun).
  rewrite wrap_run in Hget. apply reads_inv in Hget as [Hget ->].
  unfold services_GetToken in Hget.
  destruct (ProvisioningService s !! raw) as [[tok' ttl]|] eqn:Hrec; simplify_eq.
  destruct (decide (tok_DomainName tok <> domainName)) as [|Hdom%dec_stable];
    [ by apply fail_inv in Hrun as [? _] | ].
  destruct (decide (tok_Role tok <> RoleAuth)) as [|Hrol%dec_stable];
    [ by apply fail_inv in Hrun as [? _] | ].
  apply bind_Ok in Hrun as (u & s1 & Hdel & Hrun).
  rewrite wrap_run in Hdel.
  rewrite (DeleteToken_run _ _ _ _ _ Hsplit Hrec) in Hdel. simplify_eq.
  apply bind_Ok in Hrun as (u' & s2 & Hadd & Hrun).
  rewrite wrap_run in Hadd.
  unfold BkKeysService_AddSealKey, services_AddSealKey in Hadd. simplify_eq.
  apply bind_Ok in Hrun as (localKey & s3 & Hkey & Hrun).
  rewrite wrap_run in Hkey. apply reads_inv in Hkey as [Hkey ->].
  unfold services_GetSignKey in Hkey. proj_simpl. cbn [bk_signKey] in Hkey.
  destruct (bk_signKey (BkKeysService s)) as [lk|] eqn:Hsign; simplify_eq.
  apply ret_inv in Hrun as [Hk ->]. simplify_eq.
  by exists raw, r, tok, ttl, localKey.
Qed.

(** X8: a successful [RegisterNewAuthServer] has found a record bound to the
    domain name and to [RoleAuth]; it returns the public part of the local
    sign key, deletes the record of the token and nothing else from the
    provisioning store, adds the seal key of the peer at the end of the
    stored seal keys and keeps the sign key; the signing backend and the
    other services are not involved, and the token no longer validates. *)
Theorem peer_registration_exchanges_keys s domainName outputToken publicSealKey k s' :
  RegisterNewAuthServer domainName outputToken publicSealKey s = (Ok k, s') ->
  exists raw r tok ttl localKey,
    SplitTokenRole outputToken = Ok (raw, r) /\
    ProvisioningService s !! raw = Some (tok, ttl) /\
    tok_DomainName tok = domainName /\
    tok_Role tok = RoleAuth /\
    bk_signKey (BkKeysService s) = Some localKey /\
    k = Key_Public localKey /\
    ProvisioningService s' = delete raw (ProvisioningService s) /\
    bk_sealKeys (BkKeysService s') = (bk_sealKeys (BkKeysService s) ++ [publicSealKey])%list /\
    bk_signKey (BkKeysService s') = Some localKey /\
    signing_calls s' = signing_calls s /\ authority s' = authority s /\
    CAService s' = CAService s /\ WebService s' = WebService s /\
    ValidateToken outputToken domainName s'
      = (Err (NotFound "provisioning token not found"), s').
Proof.
  intros Hrun.
  apply RegisterNewAuthServer_Ok in Hrun
    as (raw & r & tok & ttl & localKey & Hsplit & Hget & Hdom & Hrol & Hsign & -> & ->).
  exists raw, r, tok, ttl, localKey. proj_simpl. cbn [bk_sealKeys bk_signKey].
  repeat (split; [ done | ]).
  eapply ValidateToken_missing; [ done | ]. proj_simpl. apply lookup_delete_eq.
Qed.

(** ** The join flow *)

(** X9: a token made by [GenerateToken] for a node name and a role admits
    that node with that role and nobody else.  When [SplitTokenRole] decodes
    what [JoinTokenRole] encodes, [RegisterUsingToken] on the new output
    token succeeds for the same node name and role as soon as the key pair
    and the host certificate are generated, and then the record is gone; for
    another node name it fails with BadParameter "domainName", and for the
    node name with another valid role it fails with BadParameter
    "token.Role", both without any change. *)
Theorem generated_token_admits_its_node s nodeName role ttl outputToken s1 :
  (forall token out, JoinTokenRole token role = Ok out ->
                     exists r, SplitTokenRole out = Ok (token, r)) ->
  GenerateToken nodeName role ttl s = (Ok outputToken, s1) ->
  (forall k pub s2 c s3,
     call (CallGenerateKeyPair EmptyString) (Authority_GenerateKeyPair EmptyString) s1
       = (Ok (k, pub), s2) ->
     GenerateHostCert pub (nodeName +:+ "." +:+ Hostname s1) (Hostname s1) role 0 s2
       = (Ok c, s3) ->
     exists raw r s4,
       SplitTokenRole outputToken = Ok (raw, r) /\
       RegisterUsingToken outputToken nodeName role s1
         = (Ok {| pk_Key := k; pk_Cert := c |}, s4) /\
       ProvisioningService s4 !! raw = None) /\
  (forall other, other <> nodeName ->
     RegisterUsingToken outputToken other role s1 =
       (Err (BadParameter "domainName" "domainName does not match"), s1)) /\
  (forall role', Role_Check role' = Ok tt -> role' <> role ->
     RegisterUsingToken outputToken nodeName role' s1 =
       (Err (BadParameter "token.Role" "role does not match"), s1)).
Proof.
  intros Hroundtrip Hgen.
  apply GenerateToken_Ok in Hgen as (_ & Hrole & _ & Hjoin & ->).
  destruct (Hroundtrip _ _ Hjoin) as [r Hsplit].
  set (raw := EncodeToString (take TokenLenBytes (entropy s))) in *.
  set (s1 := set_ProvisioningService _ _).
  assert (ProvisioningService s1 !! raw
          = Some ({| tok_DomainName := nodeName; tok_Role := role |}, ttl)) as Hget
    by (subst s1; proj_simpl; apply lookup_insert_eq).
  split; [ | split ].
  - intros k pub s2 c s3 Hkp Hcert.
    exists raw, r, (set_ProvisioningService (delete raw (ProvisioningService s3)) s3).
    split; [ done | ]. split.
    + by eapply RegisterUsingToken_run.
    + proj_simpl. apply lookup_delete_eq.
  - intros other Hother. run_to_comparisons Hrole Hsplit Hget.
    cbn [tok_DomainName]. rewrite decide_True by congruence. done.
  - intros role' Hrole' Hother. run_to_comparisons Hrole' Hsplit Hget.
    cbn [tok_DomainName tok_Role].
    rewrite decide_False by (intros Hn; by apply Hn).
    rewrite decide_True by congruence. done.
Qed.

(** ** Certificates, step by step *)

(** X10: without a CA record of the kind asked for under the local domain,
    [GenerateHostCert] (host CA) and [GenerateUserCert] (user CA) return the
    NotFound error of the lookup and leave the server as it was; the signing
    backend receives no call. *)
Theorem missing_ca_no_certificate s key hostname authDomain role username ttl :
  (CAService s !! (HostCA, Hostname s) = None ->
   GenerateHostCert key hostname authDomain role ttl s
     = (Err (NotFound "certificate authority not found"), s)) /\
  (CAService s !! (UserCA, Hostname s) = None ->
   GenerateUserCert key username ttl s
     = (Err (NotFound "certificate authority not found"), s)).
Proof.
  split; intros Hca.
  - unfold GenerateHostCert, bind, gets. rewrite wrap_run.
    unfold CAService_GetCertAuthority, reads, services_GetCertAuthority.
    cbn [id_Type id_DomainName]. by rewrite Hca.
  - unfold GenerateUserCert, bind, gets. rewrite wrap_run.
    unfold CAService_GetCertAuthority, reads, services_GetCertAuthority.
    cbn [id_Type id_DomainName]. by rewrite Hca.
Qed.

(** X11: a certificate is signed with the first signing key of the CA of
    the local domain and with no other: when the host CA (for
    [GenerateHostCert]) or the user CA (for [GenerateUserCert]) has the
    signing keys [k :: rest], the method makes one call to the backend, with
    [k] and the arguments it was given, returns what the backend returns,
    error or certificate, and changes nothing but the backend; [rest] plays
    no part. *)
Theorem certificate_is_signed_with_first_key s ca k rest key hostname authDomain role
    username ttl :
  ca_SigningKeys ca = k :: rest ->
  (CAService s !! (HostCA, Hostname s) = Some ca ->
   GenerateHostCert key hostname authDomain role ttl s =
     ((Authority_GenerateHostCert k key hostname authDomain role ttl (authority s)).1,
      set_authority
        (Authority_GenerateHostCert k key hostname authDomain role ttl (authority s)).2
        (CallGenerateHostCert k key hostname authDomain role ttl) s)) /\
  (CAService s !! (UserCA, Hostname s) = Some ca ->
   GenerateUserCert key username ttl s =
     ((Authority_GenerateUserCert k key username ttl (authority s)).1,
      set_authority
        (Authority_GenerateUserCert k key username ttl (authority s)).2
        (CallGenerateUserCert k key username ttl) s)).
Proof.
  intros Hkeys. split; intros Hca.
  - unfold GenerateHostCert, bind, gets. rewrite wrap_run.
    unfold CAService_GetCertAuthority, reads, services_GetCertAuthority.
    cbn [id_Type id_DomainName]. rewrite Hca. rewrite wrap_run.
    unfold pure, FirstSigningKey. rewrite Hkeys. unfold call.
    by destruct (Authority_GenerateHostCert k key hostname authDomain role ttl (authority s)).
  - unfold GenerateUserCert, bind, gets. rewrite wrap_run.
    unfold CAService_GetCertAuthority, reads, services_GetCertAuthority.
    cbn [id_Type id_DomainName]. rewrite Hca. rewrite wrap_run.
    unfold pure, FirstSigningKey. rewrite Hkeys. unfold call.
    by destruct (Authority_GenerateUserCert k key username ttl (authority s)).
Qed.

(** ** Web sessions, step by step *)

Lemma GetWebSessionInfo_run s userName id ws ttl user :
  web_sessions (WebService s) !! (userName, id) = Some (ws, ttl) ->
  web_users (WebService s) !! userName = Some user ->
  GetWebSessionInfo userName id s
    = (Ok {| sess_ID := id; sess_User := user; WS := WebSession_clear_Priv ws |}, s).
Proof.
  intros Hws Huser. unfold GetWebSessionInfo, bind. rewrite wrap_run.
  unfold WebService_GetWebSession, reads, services_GetWebSession. rewrite Hws.
  rewrite wrap_run. unfold GetUser, reads, services_GetUser. by rewrite Huser.
Qed.

(** What a successful [NewWebSession] asks of the signing backend. *)
Lemma NewWebSession_calls s userName sess s' :
  NewWebSession userName s = (Ok sess, s') ->
  exists priv pub b1 ca privateKey cert b2,
    Authority_GetNewKeyPairFromPool (authority s) = (Ok (priv, pub), b1) /\
    CAService s !! (UserCA, Hostname s) = Some ca /\
    FirstSigningKey ca = Ok privateKey /\
    Authority_GenerateUserCert privateKey pub userName WebSessionTTL b1 = (Ok cert, b2) /\
    Priv (WS sess) = priv /\
    Pub (WS sess) = cert /\
    authority s' = b2 /\
    signing_calls s' =
      (signing_calls s ++
         [CallGetNewKeyPairFromPool;
          CallGenerateUserCert privateKey pub userName WebSessionTTL])%list.
Proof.
  unfold NewWebSession. intros Hrun.
  apply bind_Ok in Hrun as (token & s1 & Hrand & Hrun).
  rewrite wrap_run in Hrand. apply CryptoRandomHex_Ok in Hrand as (Hlen1 & -> & ->).
  apply bind_Ok in Hrun as (bearer & s1 & Hrand & Hrun).
  rewrite wrap_run in Hrand. apply CryptoRandomHex_Ok in Hrand as (Hlen2 & -> & ->).
  apply bind_Ok in Hrun as ([priv pub] & s1 & Hpool & Hrun).
  apply call_inv in Hpool as (b1 & Hpool & ->). cbv zeta in Hrun.
  apply bind_Ok in Hrun as (hostName & s1 & Hhost & Hrun).
  apply gets_inv in Hhost as [Hhost ->]. simplify_eq.
  apply bind_Ok in Hrun as (ca & s1 & Hca & Hrun).
  rewrite wrap_run in Hca. apply reads_inv in Hca as [Hca ->].
  unfold services_GetCertAuthority in Hca. proj_simpl. cbn [id_Type id_DomainName] in Hca.
  destruct (CAService s !! (UserCA, Hostname s)) as [ca'|] eqn:Hget; simplify_eq.
  apply bind_Ok in Hrun as (privateKey & s1 & Hkey & Hrun).
  rewrite wrap_run in Hkey. apply pure_inv in Hkey as [Hkey ->].
  apply bind_Ok in Hrun as (cert & s1 & Hsign & Hrun).
  apply call_inv in Hsign as (b2 & Hsign & ->). proj_simpl.
  apply bind_Ok in Hrun as (user & s1 & Huser & Hrun).
  rewrite wrap_run in Huser. apply reads_inv in Huser as [Huser ->].
  apply bind_Ok in Hrun as (now & s1 & Hnow & Hrun).
  apply clock_Now_inv in Hnow as [Hnow ->]. proj_simpl. simplify_eq.
  apply ret_inv in Hrun as [Hsess ->]. simplify_eq. proj_simpl.
  exists priv, pub, b1, ca, privateKey, cert, b2. cbn [WS Priv Pub].
  repeat (split; [ done | ]). by rewrite <- app_assoc.
Qed.

(** X12: [NewWebSession] makes a session and does not store it: whatever its
    outcome, the web-session store, the provisioning store, the CA store and
    the key store are as before.  When it succeeds, the session carries the
    private key of a key pair taken from the pool and the certificate the
    backend issued for the public key, the user name and [WebSessionTTL]
    under the first signing key of the user CA, and these are the two calls
    the backend has received. *)
Theorem new_session_is_not_persisted s userName r s' :
  NewWebSession userName s = (r, s') ->
  (WebService s' = WebService s /\ ProvisioningService s' = ProvisioningService s /\
   CAService s' = CAService s /\ BkKeysService s' = BkKeysService s /\
   Hostname s' = Hostname s) /\
  (forall sess, r = Ok sess ->
     exists priv pub b1 ca privateKey cert b2,
       Authority_GetNewKeyPairFromPool (authority s) = (Ok (priv, pub), b1) /\
       CAService s !! (UserCA, Hostname s) = Some ca /\
       FirstSigningKey ca = Ok privateKey /\
       Authority_GenerateUserCert privateKey pub userName WebSessionTTL b1
         = (Ok cert, b2) /\
       Priv (WS sess) = priv /\
       Pub (WS sess) = cert /\
       authority s' = b2 /\
       signing_calls s' =
         (signing_calls s ++
            [CallGetNewKeyPairFromPool;
             CallGenerateUserCert privateKey pub userName WebSessionTTL])%list).
Proof.
  intros Hrun. split.
  - assert (forall X (f : AuthServer B C -> X),
              (forall b c0 s0, f (set_authority b c0 s0) = f s0) ->
              (forall e s0, f (set_entropy e s0) = f s0) ->
              (forall c0 s0, f (set_clock c0 s0) = f s0) ->
              preserves f (NewWebSession userName)) as Hframe.
    { intros X f Hf1 Hf2 Hf3. unfold NewWebSession.
      apply preserves_bind; [ by apply preserves_wrap, preserves_CryptoRandomHex | intros ? ].
      apply preserves_bind; [ by apply preserves_wrap, preserves_CryptoRandomHex | intros ? ].
      apply preserves_bind; [ apply preserves_call; intros; apply Hf1 | intros ? ].
      cbv zeta.
      apply preserves_bind; [ apply preserves_gets | intros ? ].
      apply preserves_bind; [ apply preserves_wrap, preserves_reads | intros ? ].
      apply preserves_bind; [ apply preserves_wrap, preserves_pure | intros ? ].
      apply preserves_bind; [ apply preserves_call; intros; apply Hf1 | intros ? ].
      apply preserves_bind; [ apply preserves_wrap, preserves_reads | intros ? ].
      apply preserves_bind; [ by apply preserves_Now | intros ? ].
      apply preserves_ret. }
    repeat split; by eapply Hframe.
  - intros sess ->. by apply NewWebSession_calls.
Qed.

(** X13: [SignIn] with a password that fails the check returns the error of
    the check and leaves the server as it was: no randomness is read, no key
    is taken, nothing is stored.  When the check passes and [NewWebSession]
    fails, [SignIn] returns the error of [NewWebSession] and the web-session
    store is as before: no session has been stored. *)
Theorem failed_sign_in_stores_nothing s user password :
  (forall e, CheckPasswordWOToken user password (WebService s) = Err e ->
             SignIn user password s = (Err e, s)) /\
  (forall e s1,
     CheckPasswordWOToken user password (WebService s) = Ok tt ->
     NewWebSession user s = (Err e, s1) ->
     SignIn user password s = (Err e, s1) /\
     WebService s1 = WebService s).
Proof.
  split.
  - intros e Hcheck. unfold SignIn, bind. rewrite wrap_run. unfold reads.
    by rewrite Hcheck.
  - intros e s1 Hcheck Hnew. split; [ | by eapply NewWebSession_WebService ].
    unfold SignIn, bind. rewrite wrap_run. unfold reads. rewrite Hcheck.
    by rewrite wrap_run, Hnew.
Qed.

(** X14: [CreateWebSession] asks for the previous session first: when there
    is no session of the user under [prevSessionID] it returns NotFound and
    leaves the server as it was.  When the previous session is found and
    [NewWebSession] fails, [CreateWebSession] returns the error of
    [NewWebSession] and the web-session store is as before: no session has
    been stored and the previous one is still there. *)
Theorem renewal_needs_previous_session s user prevSessionID :
  (web_sessions (WebService s) !! (user, prevSessionID) = None ->
   CreateWebSession user prevSessionID s
     = (Err (NotFound "web session not found"), s)) /\
  (forall prev e s1,
     GetWebSession user prevSessionID s = (Ok prev, s) ->
     NewWebSession user s = (Err e, s1) ->
     CreateWebSession user prevSessionID s = (Err e, s1) /\
     WebService s1 = WebService s).
Proof.
  split.
  - intros Hnone. unfold CreateWebSession, bind. rewrite wrap_run.
    unfold GetWebSession, bind. rewrite wrap_run.
    unfold WebService_GetWebSession, reads, services_GetWebSession. by rewrite Hnone.
  - intros prev e s1 Hprev Hnew. split; [ | by eapply NewWebSession_WebService ].
    unfold CreateWebSession, bind. rewrite wrap_run, Hprev.
    by rewrite wrap_run, Hnew.
Qed.

(** A session made by [NewWebSession] and stored under its ID reads back. *)
Lemma stored_session_reads_back s0 user sess0 s1 :
  NewWebSession user s0 = (Ok sess0, s1) ->
  let s' := set_WebService
              {| web_sessions :=
                   <[(user, sess_ID sess0) := (WS sess0, WebSessionTTL)]>
                     (web_sessions (WebService s1));
                 web_users := web_users (WebService s1) |} s1 in
  GetWebSession user (sess_ID sess0) s' = (Ok sess0, s') /\
  GetWebSessionInfo user (sess_ID sess0) s' = (Ok (Session_clear_Priv sess0), s').
Proof.
  intros Hnew s'.
  pose proof (NewWebSession_WebService _ _ _ _ Hnew) as Hweb.
  apply NewWebSession_Ok in Hnew
    as (priv & pub & b1 & ca & privateKey & cert & b2 & u & _ & _ & _ & _ & _ & _ &
        Huser & _ & Hsess).
  assert (web_users (WebService s') !! user = Some u) as Hu
    by (subst s'; proj_simpl; by rewrite Hweb).
  assert (web_sessions (WebService s') !! (user, sess_ID sess0)
          = Some (WS sess0, WebSessionTTL)) as Hws
    by (subst s'; proj_simpl; apply lookup_insert_eq).
  rewrite (GetWebSession_run _ _ _ _ _ _ Hws Hu).
  rewrite (GetWebSessionInfo_run _ _ _ _ _ _ Hws Hu).
  by rewrite Hsess.
Qed.

(** X15: the session returned by a successful [SignIn] or
    [CreateWebSession] is the one [GetWebSessionInfo] returns afterwards for
    the user and the ID of the session, and [GetWebSession] returns the same
    session with its private key: what was returned is what was stored,
    less the key. *)
Theorem returned_session_reads_back s user sess s' :
  (forall password,
     SignIn user password s = (Ok sess, s') ->
     GetWebSessionInfo user (sess_ID sess) s' = (Ok sess, s') /\
     exists full, GetWebSession user (sess_ID sess) s' = (Ok full, s') /\
                  Session_clear_Priv full = sess) /\
  (forall prevSessionID,
     CreateWebSession user prevSessionID s = (Ok sess, s') ->
     GetWebSessionInfo user (sess_ID sess) s' = (Ok sess, s') /\
     exists full, GetWebSession user (sess_ID sess) s' = (Ok full, s') /\
                  Session_clear_Priv full = sess).
Proof.
  split.
  - intros password Hrun. unfold SignIn in Hrun.
    apply bind_Ok in Hrun as ([] & s0 & _ & Hrun). cbv zeta in Hrun.
    apply store_and_redact_Ok in Hrun as (sess0 & s1 & Hnew & -> & ->).
    destruct (stored_session_reads_back _ _ _ _ Hnew) as [Hget Hinfo].
    cbn [Session_clear_Priv sess_ID]. split; [ exact Hinfo | ].
    by exists sess0.
  - intros prevSessionID Hrun. unfold CreateWebSession in Hrun.
    apply bind_Ok in Hrun as (prev & s0 & _ & Hrun). cbv zeta in Hrun.
    apply store_and_redact_Ok in Hrun as (sess0 & s1 & Hnew & -> & ->).
    destruct (stored_session_reads_back _ _ _ _ Hnew) as [Hget Hinfo].
    cbn [Session_clear_Priv sess_ID]. split; [ exact Hinfo | ].
    by exists sess0.
Qed.

(** X16: [GetWebSessionInfo] is [GetWebSession] with the private key
    cleared: on every state the two fail together, with the same error, or
    succeed together, and then the session of [GetWebSessionInfo] is the
    session of [GetWebSession] without its private key; neither changes the
    server. *)
Theorem info_is_get_without_key s userName id :
  (GetWebSession userName id s).2 = s /\
  GetWebSessionInfo userName id s =
    match GetWebSession userName id s with
    | (Ok sess, s') => (Ok (Session_clear_Priv sess), s')
    | (Err e, s') => (Err e, s')
    end.
Proof.
  unfold GetWebSessionInfo, GetWebSession, bind. rewrite !wrap_run.
  unfold WebService_GetWebSession, reads, services_GetWebSession.
  destruct (web_sessions (WebService s) !! (userName, id)) as [[ws ttl]|]; [ | done ].
  rewrite !wrap_run. unfold GetUser, reads, services_GetUser.
  by destruct (web_users (WebService s) !! userName).
Qed.

(** X17: after a successful [DeleteWebSession] the session is gone and
    nothing else is: the store is the store before without the record of
    (user, id), so [GetWebSession] and [GetWebSessionInfo] on it return
    NotFound and the session cannot be used for a renewal; the users and
    the other services are as before. *)
Theorem deleted_session_is_gone s user id u s' :
  DeleteWebSession user id s = (Ok u, s') ->
  web_sessions (WebService s') = delete (user, id) (web_sessions (WebService s)) /\
  web_users (WebService s') = web_users (WebService s) /\
  GetWebSession user id s' = (Err (NotFound "web session not found"), s') /\
  GetWebSessionInfo user id s' = (Err (NotFound "web session not found"), s') /\
  CreateWebSession user id s' = (Err (NotFound "web session not found"), s') /\
  ProvisioningService s' = ProvisioningService s /\ CAService s' = CAService s /\
  BkKeysService s' = BkKeysService s /\ signing_calls s' = signing_calls s.
Proof.
  unfold DeleteWebSession. rewrite wrap_run.
  unfold WebService_DeleteWebSession, services_DeleteWebSession. intros Hrun.
  destruct (web_sessions (WebService s) !! (user, id)) as [rec|] eqn:Hget; simplify_eq.
  proj_simpl.
  assert (forall s0 : AuthServer B C,
            web_sessions (WebService s0) !! (user, id) = None ->
            GetWebSession user id s0 = (Err (NotFound "web session not found"), s0))
    as Hmissing.
  { intros s0 Hnone. unfold GetWebSession, bind. rewrite wrap_run.
    unfold WebService_GetWebSession, reads, services_GetWebSession. by rewrite Hnone. }
  set (s' := set_WebService _ s).
  assert (web_sessions (WebService s') !! (user, id) = None) as Hnone
    by (subst s'; proj_simpl; apply lookup_delete_eq).
  repeat split.
  - by apply Hmissing.
  - unfold GetWebSessionInfo, bind. rewrite wrap_run.
    unfold WebService_GetWebSession, reads, services_GetWebSession. by rewrite Hnone.
  - unfold CreateWebSession, bind. rewrite wrap_run. by rewrite Hmissing.
Qed.

(** X18: [UpsertWebSession] stores the ID and the web session of the
    session it is given under the user name of the call, and not the user
    record inside the session: after a successful upsert, [GetWebSession]
    for that user and ID returns the stored web session together with the
    user record of the directory, or NotFound when the directory has no such
    user; the sessions under other keys are as before. *)
Theorem upsert_then_get s user sess ttl u s' :
  UpsertWebSession user sess ttl s = (Ok u, s') ->
  (forall current, web_users (WebService s) !! user = Some current ->
     GetWebSession user (sess_ID sess) s'
       = (Ok {| sess_ID := sess_ID sess; sess_User := current; WS := WS sess |}, s')) /\
  (web_users (WebService s) !! user = None ->
     GetWebSession user (sess_ID sess) s' = (Err (NotFound "user not found"), s')) /\
  (forall key, key <> (user, sess_ID sess) ->
     web_sessions (WebService s') !! key = web_sessions (WebService s) !! key).
Proof.
  unfold UpsertWebSession, WebService_UpsertWebSession, services_UpsertWebSession.
  intros Hrun. simplify_eq.
  set (s' := set_WebService _ s).
  assert (web_sessions (WebService s') !! (user, sess_ID sess) = Some (WS sess, ttl))
    as Hws by (subst s'; proj_simpl; apply lookup_insert_eq).
  split; [ | split ].
  - intros current Hu. by eapply GetWebSession_run.
  - intros Hnone. unfold GetWebSession, bind. rewrite wrap_run.
    unfold WebService_GetWebSession, reads, services_GetWebSession. rewrite Hws.
    rewrite wrap_run. unfold GetUser, reads, services_GetUser.
    subst s'. proj_simpl. by rewrite Hnone.
  - intros key Hkey. subst s'. proj_simpl. by rewrite lookup_insert_ne.
Qed.

(** ** Construction *)

(** X19: [NewAuthServer] sets the domain name, the [Authority] and the
    services after it has run the options, so no option can change them:
    whatever the options, the new server has the host name, the authority
    and the backend it was given, and [GetLocalDomain] returns the host
    name and never fails.  Only the clock comes from the options: without
    options it is the real clock, and when the last option is [AuthClock c]
    it is [c], or the real clock when [c] is nil. *)
Theorem new_server_takes_only_the_clock_from_options
    (realClock : C) (random : bytes) (bk : ReplicatedBackend) (a : B)
    (hostname : string) (opts : list AuthServerOption) :
  let s := NewAuthServer realClock random bk a hostname opts in
  (Hostname s = hostname /\ authority s = a /\
   CAService s = backend_CA bk /\ ProvisioningService s = backend_Provisioning bk /\
   WebService s = backend_Web bk /\ BkKeysService s = backend_BkKeys bk /\
   GetLocalDomain s = (Ok hostname, s)) /\
  clock (NewAuthServer realClock random bk a hostname []) = realClock /\
  (forall c : C,
     clock (NewAuthServer realClock random bk a hostname (opts ++ [AuthClock (Some c)]))
       = c) /\
  clock (NewAuthServer realClock random bk a hostname (opts ++ [AuthClock None]))
    = realClock.
Proof.
  intros s. subst s. split; [ | split; [ | split ] ].
  - unfold NewAuthServer, GetLocalDomain, gets. cbn [Hostname authority CAService
      ProvisioningService WebService BkKeysService]. done.
  - reflexivity.
  - intros c. unfold NewAuthServer. rewrite fold_left_app. reflexivity.
  - unfold NewAuthServer. rewrite fold_left_app. reflexivity.
Qed.

(** X20: the clock given with [AuthClock] is the clock of the sessions: on a
    server built with [AuthClock c] as its last option, a successful
    [NewWebSession] returns a session that expires [WebSessionTTL] after the
    time [c] shows, in UTC; on a server built without options the time is
    that of the real clock. *)
Theorem injected_clock_sets_expiry
    (realClock : C) (random : bytes) (bk : ReplicatedBackend) (a : B)
    (hostname : string) (opts : list AuthServerOption) userName sess s' :
  (forall c,
     NewWebSession userName
       (NewAuthServer realClock random bk a hostname (opts ++ [AuthClock (Some c)]))
       = (Ok sess, s') ->
     Expires (WS sess) = Time_Add (Time_UTC (Now c).1) WebSessionTTL) /\
  (NewWebSession userName (NewAuthServer realClock random bk a hostname [])
     = (Ok sess, s') ->
   Expires (WS sess) = Time_Add (Time_UTC (Now realClock).1) WebSessionTTL).
Proof.
  split.
  - intros c Hrun.
    apply NewWebSession_Ok in Hrun
      as (priv & pub & b1 & ca & privateKey & cert & b2 & user & _ & _ & _ & _ & _ & _ &
          _ & _ & ->).
    cbn [WS Expires]. unfold NewAuthServer. rewrite fold_left_app. reflexivity.
  - intros Hrun.
    apply NewWebSession_Ok in Hrun
      as (priv & pub & b1 & ca & privateKey & cert & b2 & user & _ & _ & _ & _ & _ & _ &
          _ & _ & ->).
    reflexivity.
Qed.

(** ** Deleting a token *)

(** X21: [DeleteToken] returns the decoding error of an output token it
    cannot decode, unwrapped, and changes nothing.  When it succeeds, the
    record of the decoded token is removed and every other record and every
    other part of the server is as before.  When [SplitTokenRole] decodes
    what [JoinTokenRole] encodes, deleting a token that [GenerateToken] has
    just made under a raw token that was not in use gives back the
    provisioning store of before the generation. *)
Theorem token_deletion_frame s outputToken :
  (forall e, SplitTokenRole outputToken = Err e ->
             DeleteToken outputToken s = (Err e, s)) /\
  (forall u s', DeleteToken outputToken s = (Ok u, s') ->
     exists raw r,
       SplitTokenRole outputToken = Ok (raw, r) /\
       ProvisioningService s' = delete raw (ProvisioningService s) /\
       (forall other, other <> raw ->
          ProvisioningService s' !! other = ProvisioningService s !! other) /\
       WebService s' = WebService s /\ CAService s' = CAService s /\
       BkKeysService s' = BkKeysService s /\ signing_calls s' = signing_calls s /\
       entropy s' = entropy s) /\
  (forall s0 nodeName role ttl,
     (forall token out, JoinTokenRole token role = Ok out ->
                        exists r, SplitTokenRole out = Ok (token, r)) ->
     GenerateToken nodeName role ttl s0 = (Ok outputToken, s) ->
     (forall raw r, SplitTokenRole outputToken = Ok (raw, r) ->
                    ProvisioningService s0 !! raw = None) ->
     exists s', DeleteToken outputToken s = (Ok tt, s') /\
                ProvisioningService s' = ProvisioningService s0).
Proof.
  split; [ | split ].
  - intros e Hsplit. by apply DeleteToken_undecodable.
  - intros u s' Hrun.
    apply DeleteToken_Ok in Hrun as (raw & r & rec & Hsplit & Hget & ->).
    exists raw, r. proj_simpl. repeat (split; [ done | ]).
    split; [ | done ]. intros other Hother. by rewrite lookup_delete_ne.
  - intros s0 nodeName role ttl Hroundtrip Hgen Hfresh.
    apply GenerateToken_Ok in Hgen as (_ & _ & _ & Hjoin & ->).
    destruct (Hroundtrip _ _ Hjoin) as [r Hsplit].
    specialize (Hfresh _ _ Hsplit).
    erewrite DeleteToken_run;
      [ | exact Hsplit | proj_simpl; apply lookup_insert_eq ].
    eexists. split; [ done | ]. proj_simpl. by apply delete_insert_id.
Qed.

(** ** Signing in *)

(** X22: a [SignIn] that succeeds has passed the password check and found
    the user: the check on the password returns no error, the session is
    for the user record of the directory, and what is stored under the user
    name and the ID of the session, with [WebSessionTTL], is the returned
    web session with the private key of the key pair the pool has given in
    place of the cleared one; the other sessions are as before, and the
    signing backend has been asked for that key pair and for one user
    certificate, for the public key of the pair. *)
Theorem sign_in_checks_password_first s user password sess s' :
  SignIn user password s = (Ok sess, s') ->
  CheckPasswordWOToken user password (WebService s) = Ok tt /\
  web_users (WebService s) !! user = Some (sess_User sess) /\
  Priv (WS sess) = [] /\
  (forall key, key <> (user, sess_ID sess) ->
     web_sessions (WebService s') !! key = web_sessions (WebService s) !! key) /\
  (exists priv pub b1 privateKey,
     Authority_GetNewKeyPairFromPool (authority s) = (Ok (priv, pub), b1) /\
     web_sessions (WebService s') !! (user, sess_ID sess)
       = Some ({| Priv := priv; Pub := Pub (WS sess); Expires := Expires (WS sess);
                  BearerToken := BearerToken (WS sess) |}, WebSessionTTL) /\
     signing_calls s' =
       (signing_calls s ++
          [CallGetNewKeyPairFromPool;
           CallGenerateUserCert privateKey pub user WebSessionTTL])%list).
Proof.
  unfold SignIn. intros Hrun.
  apply bind_Ok in Hrun as ([] & s0 & Hcheck & Hrun). cbv zeta in Hrun.
  rewrite wrap_run in Hcheck. apply reads_inv in Hcheck as [Hcheck ->].
  apply store_and_redact_Ok in Hrun as (sess0 & s1 & Hnew & -> & ->).
  pose proof (NewWebSession_WebService _ _ _ _ Hnew) as Hweb.
  pose proof (NewWebSession_calls _ _ _ _ Hnew)
    as (priv & pub & b1 & ca & pk & cert & b2 & Hpool & _ & _ & _ & Hpriv & _ & _ & Hcalls).
  apply NewWebSession_Ok in Hnew
    as (priv' & pub' & b1' & ca' & pk' & cert' & b2' & u & _ & _ & _ & _ & _ & _ &
        Huser & _ & ->).
  cbn [WS Priv] in Hpriv. subst priv'.
  proj_simpl. cbn [Session_clear_Priv WebSession_clear_Priv sess_ID sess_User WS Pub
    Priv Expires BearerToken]. rewrite Hweb.
  split; [ done | ]. split; [ done | ]. split; [ done | ].
  split; [ intros key Hkey; by rewrite lookup_insert_ne | ].
  exists priv, pub, b1, pk. split; [ done | ].
  split; [ apply lookup_insert_eq | done ].
Qed.

End Properties.

(** * The server at work

    Runs of the methods on the test server [Fake.server]. *)

Import Fake.

(** The node "db1" registers once: the first call returns a certificate for
    "db1.cluster.example", the second call with the same output token finds
    no token. *)
Example db1_registers_once :
  let first := RegisterUsingToken "nt1" "db1" "Node" server in
  let second := RegisterUsingToken "nt1" "db1" "Node" first.2 in
  first.1 = Ok {| pk_Key := [x01; x00];
                  pk_Cert := ([x0b] ++ [x02; x00] ++
                              list_byte_of_string "db1.cluster.example")%list |} /\
  second.1 = Err (NotFound "provisioning token not found").
Proof. vm_compute. split; reflexivity. Qed.

(** Validation of the same token answers with the role and keeps the
    server as it is; a different domain name is refused. *)
Example db1_token_validates :
  ValidateToken "nt1" "db1" server = (Ok "Node", server) /\
  ValidateToken "nt1" "db2" server = (Err (Errorf "domainName does not match"), server).
Proof. split; vm_compute; reflexivity. Qed.

(** C4: on the test server, which holds the peer token "t2" for "auth2" and
    has no local sign key, [RegisterNewAuthServer] with the matching domain
    name and output token returns an error, and the token record is gone
    from the provisioning store: the redemption has failed and the token
    has been deleted. *)
Theorem failed_peer_registration_deletes_token :
  let run := RegisterNewAuthServer "auth2" "at2" Fake.seal_key Fake.server in
  ProvisioningService Fake.server !! "t2"
    = Some ({| tok_DomainName := "auth2"; tok_Role := "Auth" |}, 0) /\
  run.1 = Err (NotFound "sign key not found") /\
  ProvisioningService run.2 !! "t2" = None.
Proof.
  intros run. subst run.
  rewrite (RegisterNewAuthServer_without_sign_key Fake.server "auth2" "at2"
             Fake.seal_key "t2" "Auth"
             {| tok_DomainName := "auth2"; tok_Role := "Auth" |} 0);
    try reflexivity.
  split; [ reflexivity | ]. split; [ reflexivity | ].
  cbn [snd set_BkKeysService set_ProvisioningService ProvisioningService].
  apply lookup_delete_eq.
Qed.

(** A run that succeeds and whose result and final state pass the test
    [P]: name the result and the state. *)
Ltac run_Ok_with P Hrun Hp :=
  match goal with
  | |- exists _ _, ?m = (Ok _, _) /\ _ =>
      let x := fresh "x" in
      let e := fresh "e" in
      let s' := fresh "s'" in
      assert (match m with (Ok x, s') => P x s' | (Err _, _) => false end = true) as Hp
        by (vm_compute; reflexivity);
      destruct m as [[x|e] s'] eqn:Hrun;
      [ exists x, s'; split; [ reflexivity | ] | discriminate Hp ]
  end.

Ltac run_Ok Hrun :=
  match goal with
  | |- exists _ _, ?m = (Ok _, _) /\ _ =>
      let x := fresh "x" in
      let e := fresh "e" in
      let s' := fresh "s'" in
      let Hp := fresh "Hp" in
      assert (isOk m.1 = true) as Hp by (vm_compute; reflexivity);
      destruct m as [[x|e] s'] eqn:Hrun; cbn [fst isOk] in Hp;
      [ clear Hp; exists x, s'; split; [ reflexivity | ] | discriminate Hp ]
  end.

(** A run that fails. *)
Ltac run_Err Hrun :=
  match goal with
  | |- exists _ _, ?m = (Err _, _) /\ _ =>
      let x := fresh "x" in
      let e := fresh "e" in
      let s' := fresh "s'" in
      let Hp := fresh "Hp" in
      assert (isOk m.1 = false) as Hp by (vm_compute; reflexivity);
      destruct m as [[x|e] s'] eqn:Hrun; cbn [fst isOk] in Hp;
      [ discriminate Hp | clear Hp; exists e, s'; split; [ reflexivity | ] ]
  end.

(** Alice's stored session holds a private key; what [GetWebSessionInfo]
    returns for it, and what [SignIn] and [CreateWebSession] return for
    her, holds none. *)
Lemma returned_sessions_have_no_private_key_witness :
  Priv stored_session <> [] /\
  (exists sess s', GetWebSessionInfo "alice" "s0" server = (Ok sess, s') /\
                   Priv (WS sess) = []) /\
  (exists sess s', SignIn "alice" [x70; x77] server = (Ok sess, s') /\
                   Priv (WS sess) = []) /\
  (exists sess s', CreateWebSession "alice" "s0" server = (Ok sess, s') /\
                   Priv (WS sess) = []).
Proof.
  split; [ discriminate | ]. split; [ | split ].
  - run_Ok Hrun.
    exact (proj1 (proj1 (returned_sessions_have_no_private_key server x s')
                    "alice" "s0" Hrun)).
  - run_Ok Hrun.
    exact (proj1 (proj1 (proj2 (returned_sessions_have_no_private_key server x s'))
                    "alice" [x70; x77] Hrun)).
  - run_Ok Hrun.
    exact (proj1 (proj2 (proj2 (returned_sessions_have_no_private_key server x s'))
                    "alice" "s0" Hrun)).
Defined.

(** Without a host CA the registration of "db1" fails after the key pair
    has been generated, and the token "t1" stays in the store; with the host
    CA it succeeds, and the token is gone once the certificate is issued. *)
Lemma failed_registration_keeps_token_witness :
  (exists e s',
     RegisterUsingToken "nt1" "db1" "Node" server_without_ca = (Err e, s') /\
     ProvisioningService s' = ProvisioningService server_without_ca /\
     e = NotFound "certificate authority not found" /\
     ProvisioningService s' !! "t1"
       = Some ({| tok_DomainName := "db1"; tok_Role := "Node" |}, 0)) /\
  (exists keys s',
     RegisterUsingToken "nt1" "db1" "Node" server = (Ok keys, s') /\
     ProvisioningService s' !! "t1" = None /\
     exists k pub s1 c s2,
       call (CallGenerateKeyPair EmptyString) (Authority_GenerateKeyPair EmptyString) server
         = (Ok (k, pub), s1) /\
       GenerateHostCert pub "db1.cluster.example" "cluster.example" "Node" 0 s1
         = (Ok c, s2) /\
       keys = {| pk_Key := k; pk_Cert := c |}).
Proof.
  split.
  - run_Err Hrun.
    pose proof (failed_registration_keeps_token server_without_ca "nt1" "db1" "Node"
                  (Err e) s' Hrun) as (Hkept & Hcert & _).
    split; [ exact (Hkept e eq_refl) | ].
    assert (Err (A := PackedKeys) e = Err (NotFound "certificate authority not found")
            /\ ProvisioningService s' !! "t1"
               = Some ({| tok_DomainName := "db1"; tok_Role := "Node" |}, 0))
      as [Herr Hrec].
    { apply (Hcert "t1" "Node" {| tok_DomainName := "db1"; tok_Role := "Node" |} 0
               [x01; x00] [x02; x00]
               (set_authority 1%nat (CallGenerateKeyPair EmptyString) server_without_ca)
               (NotFound "certificate authority not found")
               (set_authority 1%nat (CallGenerateKeyPair EmptyString) server_without_ca));
        vm_compute; reflexivity. }
    split; [ congruence | exact Hrec ].
  - run_Ok_with (fun (_ : PackedKeys) (s' : AuthServer nat Time) =>
                   match ProvisioningService s' !! "t1" with
                   | None => true
                   | Some _ => false
                   end) Hrun Hgone.
    destruct (ProvisioningService s' !! "t1") as [rec|] eqn:Hrec; [ discriminate Hgone | ].
    split; [ reflexivity | ].
    pose proof (failed_registration_keeps_token server "nt1" "db1" "Node"
                  (Ok x) s' Hrun) as (_ & _ & Hissued).
    assert (ProvisioningService s' <> ProvisioningService server) as Hchanged.
    { intros Hsame. rewrite Hsame in Hrec. vm_compute in Hrec. discriminate Hrec. }
    destruct (Hissued Hchanged) as (k & pub & s1 & c & s2 & Hkp & Hcert & Hkeys).
    exists k, pub, s1, c, s2.
    split; [ exact Hkp | ]. split; [ exact Hcert | congruence ].
Defined.

(** A token generated for "db2" as a node validates for "db2" with the
    role of a node. *)
Lemma generated_token_validates_witness :
  exists outputToken s',
    GenerateToken "db2" "Node" 0 server = (Ok outputToken, s') /\
    ValidateToken outputToken "db2" s' = (Ok "Node", s').
Proof.
  run_Ok Hrun.
  apply (generated_token_validates server "db2" "Node" 0 x s'); [ | exact Hrun ].
  intros token out Hjoin. exists "Node".
  change (join token "Node" = Ok out) in Hjoin.
  unfold join in Hjoin. simpl in Hjoin.
  injection Hjoin as <-. reflexivity.
Defined.

(** The registration of "db1" on the test server asks the backend for a key
    pair and for a host certificate for "db1.cluster.example". *)
Lemma registration_issues_certificate_for_fqdn_witness :
  exists keys s',
    RegisterUsingToken "nt1" "db1" "Node" server = (Ok keys, s') /\
    exists privateKey pub,
      signing_calls s' =
        [CallGenerateKeyPair EmptyString;
         CallGenerateHostCert privateKey pub "db1.cluster.example"
           "cluster.example" "Node" 0].
Proof.
  run_Ok Hrun.
  destruct (registration_issues_certificate_for_fqdn server "nt1" "db1" "Node" x s' Hrun)
    as (raw & r & tok & ttl & k & pub & s1 & s2 & ca & privateKey & b & _ & _ & _ & _ &
        _ & _ & _ & _ & _ & _ & Hcalls).
  exists privateKey, pub. exact Hcalls.
Defined.

(** On the server whose CAs have no signing key, neither certificate can be
    generated, and the backend receives no call. *)
Lemma no_signing_key_no_certificate_witness :
  GenerateHostCert [x02] "db1.cluster.example" "cluster.example" "Node" 0
    server_without_signing_keys
    = (Err (NotFound "no signing key available"), server_without_signing_keys) /\
  GenerateUserCert [x02] "alice" WebSessionTTL server_without_signing_keys
    = (Err (NotFound "no signing key available"), server_without_signing_keys).
Proof.
  split.
  - apply (proj1 (no_signing_key_no_certificate server_without_signing_keys [x02]
                    "db1.cluster.example" "cluster.example" "Node" "alice" 0)
             {| ca_Type := HostCA; ca_DomainName := "cluster.example";
                ca_CheckingKeys := [[x0a]]; ca_SigningKeys := [] |});
      vm_compute; reflexivity.
  - apply (proj2 (no_signing_key_no_certificate server_without_signing_keys [x02]
                    "db1.cluster.example" "cluster.example" "Node" "alice"
                    WebSessionTTL)
             {| ca_Type := UserCA; ca_DomainName := "cluster.example";
                ca_CheckingKeys := [[x0c]]; ca_SigningKeys := [] |});
      vm_compute; reflexivity.
Defined.

(** With the clock fixed at instant 1000, the session of alice expires at
    instant 600000001000, in UTC; the token generated for "db2" encodes 16
    bytes of the random source. *)
Lemma new_session_expiry_and_token_lengths_witness :
  (exists sess s',
     NewWebSession "alice" server = (Ok sess, s') /\
     Expires (WS sess) = {| unixNano := 600000001000; location := UTCLocation |}) /\
  (exists outputToken s',
     GenerateToken "db2" "Node" 0 server = (Ok outputToken, s') /\
     exists raw : bytes,
       length raw = 16%nat /\
       JoinTokenRole (EncodeToString raw) "Node" = Ok outputToken).
Proof.
  split.
  - run_Ok Hrun.
    destruct (proj1 (new_session_expiry_and_token_lengths server) "alice" x s' Hrun)
      as (Hexp & _).
    rewrite Hexp. reflexivity.
  - run_Ok Hrun.
    destruct (proj1 (proj2 (new_session_expiry_and_token_lengths server))
                "db2" "Node" 0 x s' Hrun)
      as (raw & Hlen & Hjoin & _).
    by exists raw.
Defined.



(** * Discovery configs *)

Section DiscoveryConfigProperties.

Context {T AWSMatcher AzureMatcher GCPMatcher KubernetesMatcher : Type}
        `{ui.DiscoveryConfigAPI T AWSMatcher AzureMatcher GCPMatcher KubernetesMatcher}.

Implicit Types dcs : list (option T).
Implicit Types uiList us :
  list (ui.DiscoveryConfig AWSMatcher AzureMatcher GCPMatcher KubernetesMatcher).

Lemma MakeDiscoveryConfigs_loop_Some dcs uiList us :
  ui.MakeDiscoveryConfigs_loop dcs uiList = Some us <->
  exists made,
    us = (uiList ++ made)%list /\
    Forall2 (fun dc u => ui.MakeDiscoveryConfig dc = Some u) dcs made.
Proof.
  revert uiList us. induction dcs as [|dc rest IH]; intros uiList us; simpl.
  - split.
    + intros [= <-]. exists []. by rewrite app_nil_r.
    + intros (made & -> & Hall). apply Forall2_nil_inv_l in Hall as ->.
      by rewrite app_nil_r.
  - destruct (ui.MakeDiscoveryConfig dc) as [u|] eqn:Hu.
    + rewrite IH. split.
      * intros (made & -> & Hall). exists (u :: made).
        split; [ by rewrite <- app_assoc | by constructor ].
      * intros (made & -> & Hall).
        apply Forall2_cons_inv_l in Hall as (u' & made' & Hu' & Hall & ->).
        simplify_eq. exists made'. split; [ by rewrite <- app_assoc | done ].
    + split; [ done | ].
      intros (made & -> & Hall).
      apply Forall2_cons_inv_l in Hall as (u' & made' & Hu' & _ & _). congruence.
Qed.

Lemma MakeDiscoveryConfigs_loop_None dcs uiList :
  ui.MakeDiscoveryConfigs_loop dcs uiList = None <-> None ∈ dcs.
Proof.
  revert uiList. induction dcs as [|dc rest IH]; intros uiList; simpl.
  - split; [ done | by intros ?%elem_of_nil ].
  - destruct dc as [d|]; simpl.
    + rewrite IH. rewrite elem_of_cons.
      split; [ by right | by intros [Heq|Hin] ].
    + split; [ intros _; apply elem_of_cons; by left | done ].
Qed.

(** X23: [MakeDiscoveryConfigs] converts the configs one by one and in
    order: it returns a list exactly when no pointer of its argument is nil,
    the list has the length of the argument and its i-th element is
    [MakeDiscoveryConfig] of the i-th config, with the name, the group and
    the four matcher lists of that config; a nil pointer anywhere makes it
    panic. *)
Theorem discovery_configs_are_made_in_order dcs :
  (forall us,
     ui.MakeDiscoveryConfigs dcs = Some us <->
     Forall2 (fun dc u => ui.MakeDiscoveryConfig dc = Some u) dcs us) /\
  (forall us, ui.MakeDiscoveryConfigs dcs = Some us -> length us = length dcs) /\
  (ui.MakeDiscoveryConfigs dcs = None <-> None ∈ dcs) /\
  (forall ds : list T,
     dcs = map Some ds ->
     ui.MakeDiscoveryConfigs dcs =
       Some (map (fun d => {| ui.Name := ui.GetName d;
                              ui.DiscoveryGroup := ui.GetDiscoveryGroup d;
                              ui.AWS := ui.Spec_AWS d;
                              ui.Azure := ui.Spec_Azure d;
                              ui.GCP := ui.Spec_GCP d;
                              ui.Kube := ui.Spec_Kube d |}) ds)).
Proof.
  assert (forall us,
            ui.MakeDiscoveryConfigs dcs = Some us <->
            Forall2 (fun dc u => ui.MakeDiscoveryConfig dc = Some u) dcs us) as Hspec.
  { intros us. unfold ui.MakeDiscoveryConfigs. rewrite MakeDiscoveryConfigs_loop_Some.
    split; [ by intros (made & -> & Hall) | intros Hall; by exists us ]. }
  split; [ exact Hspec | ]. split; [ | split ].
  - intros us Hus. apply Hspec in Hus. symmetry. by eapply Forall2_length.
  - apply MakeDiscoveryConfigs_loop_None.
  - intros ds ->. apply Hspec. clear Hspec.
    induction ds as [|d ds IH]; simpl; by constructor.
Qed.

(** X24: a [DiscoveryConfig] passes [CheckAndSetDefaults] exactly when its
    name and its discovery group are not empty; the name is looked at first,
    so an empty name is the error reported whatever the group, and every
    error is a BadParameter error.  An [UpdateDiscoveryConfigRequest] passes
    exactly when its discovery group is not empty, so the request that
    carries the group and the matchers of a config that passes its check
    passes too. *)
Theorem discovery_config_checks
    (r : ui.DiscoveryConfig AWSMatcher AzureMatcher GCPMatcher KubernetesMatcher)
    (u : ui.UpdateDiscoveryConfigRequest AWSMatcher AzureMatcher GCPMatcher KubernetesMatcher) :
  (ui.DiscoveryConfig_CheckAndSetDefaults r = Ok tt <->
   ui.Name r <> EmptyString /\ ui.DiscoveryGroup r <> EmptyString) /\
  (ui.Name r = EmptyString ->
   ui.DiscoveryConfig_CheckAndSetDefaults r
     = Err (ui.trace_BadParameter "missing discovery config name")) /\
  (forall e, ui.DiscoveryConfig_CheckAndSetDefaults r = Err e ->
             exists msg, e = ui.trace_BadParameter msg) /\
  (ui.UpdateDiscoveryConfigRequest_CheckAndSetDefaults u = Ok tt <->
   ui.upd_DiscoveryGroup u <> EmptyString) /\
  (ui.DiscoveryConfig_CheckAndSetDefaults r = Ok tt ->
   ui.UpdateDiscoveryConfigRequest_CheckAndSetDefaults
     {| ui.upd_DiscoveryGroup := ui.DiscoveryGroup r; ui.upd_AWS := ui.AWS r;
        ui.upd_Azure := ui.Azure r; ui.upd_GCP := ui.GCP r; ui.upd_Kube := ui.Kube r |}
     = Ok tt).
Proof.
  unfold ui.DiscoveryConfig_CheckAndSetDefaults,
    ui.UpdateDiscoveryConfigRequest_CheckAndSetDefaults.
  cbn [ui.upd_DiscoveryGroup].
  destruct (decide (ui.Name r = EmptyString)) as [Hn|Hn];
    destruct (decide (ui.DiscoveryGroup r = EmptyString)) as [Hg|Hg];
    destruct (decide (ui.upd_DiscoveryGroup u = EmptyString)) as [Hu|Hu];
    repeat split; try done; try (intros [? ?]; done);
    try (intros e [= <-]; by eexists).
Qed.

End DiscoveryConfigProperties.

(** * More runs on the test servers *)

Import Scenario.

(** An empty node name and an unknown role are refused and nothing changes;
    without randomness, and with a role that cannot be encoded, no token is
    stored. *)
Lemma token_generation_rejects_without_effect_witness :
  GenerateToken EmptyString "Node" 0 server
    = (Err (BadParameter "nodeName" "'' is not a valid dns name"), server) /\
  GenerateToken "db2" "Bogus" 0 server
    = (Err (BadParameter "role" "role is not registered"), server) /\
  GenerateToken "db2" "Node" 0 server_without_entropy
    = (Err (External "random source failed"), server_without_entropy) /\
  (exists s1,
     GenerateToken (H1 := helpers_with_proxy) "db2" "Proxy" 0 server
       = (Err (BadParameter "role" "unknown role"), s1) /\
     ProvisioningService s1 = ProvisioningService server).
Proof.
  split; [ | split; [ | split ] ].
  - apply (proj1 (token_generation_rejects_without_effect server EmptyString "Node" 0)).
    vm_compute; reflexivity.
  - apply (proj1 (proj2 (token_generation_rejects_without_effect server "db2" "Bogus" 0)));
      vm_compute; reflexivity.
  - apply (proj1 (proj2 (proj2 (token_generation_rejects_without_effect
                                  server_without_entropy "db2" "Node" 0))));
      vm_compute; reflexivity.
  - exists (utils_CryptoRandomHex TokenLenBytes server).2.
    apply (proj2 (proj2 (proj2 (token_generation_rejects_without_effect
                                  (H1 := helpers_with_proxy) server "db2" "Proxy" 0)))
             "000102030405060708090a0b0c0d0e0f");
      vm_compute; reflexivity.
Defined.


(** After "db1" has registered, its token is of no use. *)
Lemma registration_consumes_token_witness :
  exists keys s',
    RegisterUsingToken "nt1" "db1" "Node" server = (Ok keys, s') /\
    RegisterUsingToken "nt1" "db1" "Node" s'
      = (Err (NotFound "provisioning token not found"), s') /\
    ValidateToken "nt1" "db1" s'
      = (Err (NotFound "provisioning token not found"), s').
Proof.
  run_Ok Hrun.
  destruct (registration_consumes_token server "nt1" "db1" "Node" x s' Hrun)
    as (raw & r & _ & _ & Hval & Hreg & _).
  split; [ exact Hreg | exact (Hval "db1") ].
Defined.

(** The token with which "db1" registers validates for "db1". *)
Lemma registered_token_validates_witness :
  exists keys s',
    RegisterUsingToken "nt1" "db1" "Node" server = (Ok keys, s') /\
    ValidateToken "nt1" "db1" server = (Ok "Node", server).
Proof.
  run_Ok Hrun.
  exact (registered_token_validates server "nt1" "db1" "Node" x s' Hrun).
Defined.

(** The token of "db1" is refused for "db9" and for the role of an
    authority. *)
Lemma registration_refuses_mismatch_witness :
  RegisterUsingToken "nt1" "db9" "Node" server
    = (Err (BadParameter "domainName" "domainName does not match"), server) /\
  RegisterUsingToken "nt1" "db1" "Auth" server
    = (Err (BadParameter "token.Role" "role does not match"), server).
Proof.
  assert (Role_Check "Node" = Ok tt) as Hnode by (vm_compute; reflexivity).
  assert (Role_Check "Auth" = Ok tt) as Hauth by (vm_compute; reflexivity).
  assert (SplitTokenRole "nt1" = Ok ("t1", "Node")) as Hsplit by (vm_compute; reflexivity).
  assert (ProvisioningService server !! "t1"
          = Some ({| tok_DomainName := "db1"; tok_Role := "Node" |}, 0)) as Hget
    by (vm_compute; reflexivity).
  split.
  - apply (proj1 (registration_refuses_mismatch server "nt1" "db9" "Node" "t1" "Node"
                    _ 0 Hnode Hsplit Hget)).
    discriminate.
  - apply (proj2 (registration_refuses_mismatch server "nt1" "db1" "Auth" "t1" "Node"
                    _ 0 Hauth Hsplit Hget)).
    + reflexivity.
    + discriminate.
Defined.

(** "at1" and "nt1" carry the same token "t1" with two role tags, and are
    treated alike. *)
Lemma role_tag_is_ignored_witness :
  ValidateToken "at1" "db1" server = ValidateToken "nt1" "db1" server /\
  RegisterUsingToken "at1" "db1" "Node" server
    = RegisterUsingToken "nt1" "db1" "Node" server /\
  (ValidateToken "at1" "db1" server).1 = Ok "Node".
Proof.
  assert (SplitTokenRole "at1" = Ok ("t1", "Auth")) as Hs1 by (vm_compute; reflexivity).
  assert (SplitTokenRole "nt1" = Ok ("t1", "Node")) as Hs2 by (vm_compute; reflexivity).
  destruct (role_tag_is_ignored server "at1" "nt1" "t1" "Auth" "Node" Hs1 Hs2)
    as (Hval & Hreg & _).
  split; [ exact (Hval "db1") | ]. split; [ exact (Hreg "db1" "Node") | ].
  vm_compute. reflexivity.
Defined.

(** A peer is refused with the token of another domain, with the token of a
    node, and with an unknown token. *)
Lemma peer_registration_refuses_mismatch_witness :
  RegisterNewAuthServer "auth3" "at2" seal_key server
    = (Err (AccessDenied "domainName does not match"), server) /\
  RegisterNewAuthServer "db1" "nt1" seal_key server
    = (Err (AccessDenied "role does not match"), server) /\
  RegisterNewAuthServer "auth2" "at7" seal_key server
    = (Err (NotFound "provisioning token not found"), server).
Proof.
  assert (SplitTokenRole "at2" = Ok ("t2", "Auth")) as Hs2 by (vm_compute; reflexivity).
  assert (SplitTokenRole "nt1" = Ok ("t1", "Node")) as Hs1 by (vm_compute; reflexivity).
  assert (SplitTokenRole "at7" = Ok ("t7", "Auth")) as Hs7 by (vm_compute; reflexivity).
  split; [ | split ].
  - apply (proj1 (proj2 (peer_registration_refuses_mismatch server "auth3" "at2" seal_key
                           "t2" "Auth" Hs2))
             {| tok_DomainName := "auth2"; tok_Role := "Auth" |} 0).
    + vm_compute; reflexivity.
    + discriminate.
  - apply (proj2 (proj2 (peer_registration_refuses_mismatch server "db1" "nt1" seal_key
                           "t1" "Node" Hs1))
             {| tok_DomainName := "db1"; tok_Role := "Node" |} 0).
    + vm_compute; reflexivity.
    + reflexivity.
    + discriminate.
  - apply (proj1 (peer_registration_refuses_mismatch server "auth2" "at7" seal_key
                    "t7" "Auth" Hs7)).
    vm_compute; reflexivity.
Defined.

(** With a local sign key, the peer "auth2" gets the public part of the key
    and its seal key is stored after the one that was there. *)
Lemma peer_registration_exchanges_keys_witness :
  exists k s',
    RegisterNewAuthServer "auth2" "at2" seal_key server_with_sign_key = (Ok k, s') /\
    key_PrivateValue k = [] /\
    key_PublicValue k = [x21] /\
    bk_sealKeys (BkKeysService s') = [local_sign_key; seal_key].
Proof.
  run_Ok Hrun.
  destruct (peer_registration_exchanges_keys server_with_sign_key "auth2" "at2" seal_key
              x s' Hrun)
    as (raw & r & tok & ttl & localKey & _ & _ & _ & _ & Hsign & -> & _ & Hseal & _).
  cbn in Hsign. injection Hsign as <-.
  split; [ reflexivity | ]. split; [ reflexivity | exact Hseal ].
Defined.

(** A token generated for "db2" as a node registers "db2" as a node, and
    neither "db3" nor "db2" as an authority. *)
Lemma generated_token_admits_its_node_witness :
  let outputToken := "n000102030405060708090a0b0c0d0e0f" in
  let s1 := (GenerateToken "db2" "Node" 0 server).2 in
  (exists s4,
     RegisterUsingToken outputToken "db2" "Node" s1 =
       (Ok {| pk_Key := [x01; x00];
              pk_Cert := ([x0b] ++ [x02; x00] ++
                          list_byte_of_string "db2.cluster.example")%list |}, s4)) /\
  RegisterUsingToken outputToken "db3" "Node" s1
    = (Err (BadParameter "domainName" "domainName does not match"), s1) /\
  RegisterUsingToken outputToken "db2" "Auth" s1
    = (Err (BadParameter "token.Role" "role does not match"), s1).
Proof.
  intros outputToken s1.
  assert (forall token out, JoinTokenRole token "Node" = Ok out ->
                            exists r, SplitTokenRole out = Ok (token, r)) as Hroundtrip.
  { intros token out Hjoin. exists "Node".
    change (join token "Node" = Ok out) in Hjoin.
    unfold join in Hjoin. simpl in Hjoin.
    injection Hjoin as <-. reflexivity. }
  assert (GenerateToken "db2" "Node" 0 server = (Ok outputToken, s1)) as Hgen
    by (vm_compute; reflexivity).
  destruct (generated_token_admits_its_node server "db2" "Node" 0 outputToken s1
              Hroundtrip Hgen) as (Hadmit & Hother & Hrole).
  split; [ | split ].
  - set (s2 := (call (CallGenerateKeyPair EmptyString)
                  (Authority_GenerateKeyPair EmptyString) s1).2).
    set (s3 := (GenerateHostCert [x02; x00] "db2.cluster.example" "cluster.example"
                  "Node" 0 s2).2).
    destruct (Hadmit [x01; x00] [x02; x00] s2
                ([x0b] ++ [x02; x00] ++ list_byte_of_string "db2.cluster.example")%list s3)
      as (raw & r & s4 & _ & Hreg & _).
    + vm_compute; reflexivity.
    + vm_compute; reflexivity.
    + by exists s4.
  - apply Hother. discriminate.
  - apply Hrole; [ vm_compute; reflexivity | discriminate ].
Defined.

(** Without CAs no certificate is generated. *)
Lemma missing_ca_no_certificate_witness :
  GenerateHostCert [x02] "db1.cluster.example" "cluster.example" "Node" 0 server_without_ca
    = (Err (NotFound "certificate authority not found"), server_without_ca) /\
  GenerateUserCert [x02] "alice" WebSessionTTL server_without_ca
    = (Err (NotFound "certificate authority not found"), server_without_ca).
Proof.
  split.
  - apply (proj1 (missing_ca_no_certificate server_without_ca [x02] "db1.cluster.example"
                    "cluster.example" "Node" "alice" 0)).
    vm_compute; reflexivity.
  - apply (proj2 (missing_ca_no_certificate server_without_ca [x02] "db1.cluster.example"
                    "cluster.example" "Node" "alice" WebSessionTTL)).
    vm_compute; reflexivity.
Defined.

(** With two signing keys per CA, certificates carry the first. *)
Lemma certificate_is_signed_with_first_key_witness :
  (GenerateHostCert [x02] "h" "cluster.example" "Node" 0 server_with_two_keys).1
    = Ok ([x0b] ++ [x02] ++ list_byte_of_string "h")%list /\
  (GenerateUserCert [x02] "alice" WebSessionTTL server_with_two_keys).1
    = Ok ([x0b] ++ [x02] ++ list_byte_of_string "alice")%list.
Proof.
  split.
  - rewrite (proj1 (certificate_is_signed_with_first_key server_with_two_keys
                      (two_key_ca HostCA) [x0b] [[x0e]] [x02] "h" "cluster.example" "Node"
                      "alice" 0 eq_refl)) by (vm_compute; reflexivity).
    reflexivity.
  - rewrite (proj2 (certificate_is_signed_with_first_key server_with_two_keys
                      (two_key_ca UserCA) [x0b] [[x0e]] [x02] "h" "cluster.example" "Node"
                      "alice" WebSessionTTL eq_refl)) by (vm_compute; reflexivity).
    reflexivity.
Defined.

(** The new session of alice holds the private key of the pool and is not in
    the store. *)
Lemma new_session_is_not_persisted_witness :
  exists sess s',
    NewWebSession "alice" server = (Ok sess, s') /\
    WebService s' = WebService server /\
    Priv (WS sess) = [x01; x00].
Proof.
  run_Ok Hrun.
  destruct (new_session_is_not_persisted server "alice" (Ok x) s' Hrun)
    as [(Hweb & _) Hok].
  destruct (Hok x eq_refl) as (priv & pub & b1 & ca & pk & cert & b2 & Hpool & _ & _ & _ &
                               Hpriv & _).
  split; [ exact Hweb | ]. rewrite Hpriv.
  vm_compute in Hpool. by injection Hpool as <- _ _.
Defined.

(** A wrong password changes nothing; a sign-in that fails for want of a
    user CA stores no session. *)
Lemma failed_sign_in_stores_nothing_witness :
  SignIn "alice" [x00] server
    = (Err (BadParameter "password" "passwords do not match"), server) /\
  (exists s1,
     SignIn "alice" [x70; x77] server_without_ca
       = (Err (NotFound "certificate authority not found"), s1) /\
     WebService s1 = WebService server_without_ca).
Proof.
  split.
  - apply (proj1 (failed_sign_in_stores_nothing server "alice" [x00])).
    vm_compute; reflexivity.
  - exists (NewWebSession "alice" server_without_ca).2.
    apply (proj2 (failed_sign_in_stores_nothing server_without_ca "alice" [x70; x77]));
      vm_compute; reflexivity.
Defined.

(** No renewal from a session that does not exist; a renewal that fails for
    want of a user CA stores no session. *)
Lemma renewal_needs_previous_session_witness :
  CreateWebSession "alice" "s7" server
    = (Err (NotFound "web session not found"), server) /\
  (exists s1,
     CreateWebSession "alice" "s0" server_without_ca
       = (Err (NotFound "certificate authority not found"), s1) /\
     WebService s1 = WebService server_without_ca).
Proof.
  split.
  - apply (proj1 (renewal_needs_previous_session server "alice" "s7")).
    vm_compute; reflexivity.
  - exists (NewWebSession "alice" server_without_ca).2.
    apply (proj2 (renewal_needs_previous_session server_without_ca "alice" "s0")
             {| sess_ID := "s0"; sess_User := alice; WS := stored_session |});
      vm_compute; reflexivity.
Defined.

(** What alice gets from [SignIn] and from a renewal is what
    [GetWebSessionInfo] shows afterwards. *)
Lemma returned_session_reads_back_witness :
  (exists sess s',
     SignIn "alice" [x70; x77] server = (Ok sess, s') /\
     GetWebSessionInfo "alice" (sess_ID sess) s' = (Ok sess, s')) /\
  (exists sess s',
     CreateWebSession "alice" "s0" server = (Ok sess, s') /\
     GetWebSessionInfo "alice" (sess_ID sess) s' = (Ok sess, s')).
Proof.
  split.
  - run_Ok Hrun.
    exact (proj1 (proj1 (returned_session_reads_back server "alice" x s')
                    [x70; x77] Hrun)).
  - run_Ok Hrun.
    exact (proj1 (proj2 (returned_session_reads_back server "alice" x s') "s0" Hrun)).
Defined.

(** Once alice's session "s0" is deleted it cannot be renewed. *)
Lemma deleted_session_is_gone_witness :
  exists u s',
    DeleteWebSession "alice" "s0" server = (Ok u, s') /\
    CreateWebSession "alice" "s0" s' = (Err (NotFound "web session not found"), s').
Proof.
  run_Ok Hrun.
  destruct (deleted_session_is_gone server "alice" "s0" x s' Hrun)
    as (_ & _ & _ & _ & Hrenew & _).
  exact Hrenew.
Defined.

(** A session stored for alice with the user record of mallory inside reads
    back with the record of alice; stored for bob, who is not in the
    directory, it does not read back. *)
Lemma upsert_then_get_witness :
  (exists u s',
     UpsertWebSession "alice" foreign_session 0 server = (Ok u, s') /\
     GetWebSession "alice" "s9" s'
       = (Ok {| sess_ID := "s9"; sess_User := alice; WS := WS foreign_session |}, s')) /\
  (exists u s',
     UpsertWebSession "bob" foreign_session 0 server = (Ok u, s') /\
     GetWebSession "bob" "s9" s' = (Err (NotFound "user not found"), s')).
Proof.
  split.
  - run_Ok Hrun.
    destruct (upsert_then_get server "alice" foreign_session 0 x s' Hrun) as (Hget & _).
    apply Hget. vm_compute; reflexivity.
  - run_Ok Hrun.
    destruct (upsert_then_get server "bob" foreign_session 0 x s' Hrun) as (_ & Hnone & _).
    apply Hnone. vm_compute; reflexivity.
Defined.

(** A server built with a clock fixed at instant 5000 makes a session that
    expires at instant 600000005000. *)
Lemma injected_clock_sets_expiry_witness :
  exists sess s',
    NewWebSession "alice"
      (NewAuthServer noon (entropy server) backend 0%nat "cluster.example"
         [AuthClock (B := nat) (Some midnight)])
      = (Ok sess, s') /\
    Expires (WS sess) = {| unixNano := 600000005000; location := UTCLocation |}.
Proof.
  run_Ok Hrun.
  rewrite (proj1 (injected_clock_sets_expiry noon (entropy server) backend 0%nat
                    "cluster.example" [] "alice" x s') midnight Hrun).
  reflexivity.
Defined.

(** Two configs are converted in order; a nil pointer among them is a
    panic. *)
Lemma discovery_configs_are_made_in_order_witness :
  ui.MakeDiscoveryConfigs [Some prod_config; Some unnamed_config]
    = Some [ {| ui.Name := "prod"; ui.DiscoveryGroup := "g1"; ui.AWS := [1%nat; 2%nat];
                ui.Azure := []; ui.GCP := []; ui.Kube := [] |};
             {| ui.Name := EmptyString; ui.DiscoveryGroup := "g2"; ui.AWS := [];
                ui.Azure := []; ui.GCP := []; ui.Kube := [] |} ] /\
  ui.MakeDiscoveryConfigs [Some prod_config; None] = None.
Proof.
  split.
  - exact (proj2 (proj2 (proj2 (discovery_configs_are_made_in_order
                                  [Some prod_config; Some unnamed_config])))
             [prod_config; unnamed_config] eq_refl).
  - apply (proj1 (proj2 (proj2 (discovery_configs_are_made_in_order
                                  [Some prod_config; None])))).
    apply elem_of_cons. right. apply elem_of_cons. by left.
Defined.

(** The config "prod" passes its check, the config without a name does
    not. *)
Lemma discovery_config_checks_witness :
  ui.DiscoveryConfig_CheckAndSetDefaults
    {| ui.Name := "prod"; ui.DiscoveryGroup := "g1"; ui.AWS := [1%nat];
       ui.Azure := @nil nat; ui.GCP := @nil nat; ui.Kube := @nil nat |} = Ok tt /\
  ui.DiscoveryConfig_CheckAndSetDefaults
    {| ui.Name := EmptyString; ui.DiscoveryGroup := "g2"; ui.AWS := @nil nat;
       ui.Azure := @nil nat; ui.GCP := @nil nat; ui.Kube := @nil nat |}
    = Err (ui.trace_BadParameter "missing discovery config name").
Proof.
  pose (u := {| ui.upd_DiscoveryGroup := "g1"; ui.upd_AWS := @nil nat;
                ui.upd_Azure := @nil nat; ui.upd_GCP := @nil nat;
                ui.upd_Kube := @nil nat |}).
  split.
  - apply (proj1 (discovery_config_checks _ u)). split; discriminate.
  - apply (proj1 (proj2 (discovery_config_checks _ u))). reflexivity.
Defined.

(** The token of "db1" is deleted and the token of "auth2" stays; an output
    token without a role tag is not decoded. *)
Lemma token_deletion_frame_witness :
  DeleteToken "x" server = (Err (BadParameter "token" "unknown role tag"), server) /\
  (exists u s',
     DeleteToken "nt1" server = (Ok u, s') /\
     ProvisioningService s' !! "t1" = None /\
     ProvisioningService s' !! "t2" = ProvisioningService server !! "t2") /\
  (exists s',
     DeleteToken "n000102030405060708090a0b0c0d0e0f"
       (GenerateToken "db2" "Node" 0 server).2 = (Ok tt, s') /\
     ProvisioningService s' = ProvisioningService server).
Proof.
  split; [ | split ].
  - apply (proj1 (token_deletion_frame server "x")). vm_compute; reflexivity.
  - run_Ok Hrun.
    destruct (proj1 (proj2 (token_deletion_frame server "nt1")) x s' Hrun)
      as (raw & r & Hsplit & Hdel & Hother & _).
    assert (raw = "t1") as -> by (vm_compute in Hsplit; congruence).
    split; [ rewrite Hdel; apply lookup_delete_eq | ].
    apply Hother. discriminate.
  - apply (proj2 (proj2 (token_deletion_frame (GenerateToken "db2" "Node" 0 server).2
                           "n000102030405060708090a0b0c0d0e0f"))
             server "db2" "Node" 0).
    + intros token out Hjoin. exists "Node".
      change (join token "Node" = Ok out) in Hjoin.
      unfold join in Hjoin. simpl in Hjoin.
      injection Hjoin as <-. reflexivity.
    + vm_compute; reflexivity.
    + intros raw r Hsplit. vm_compute in Hsplit. injection Hsplit as <- _.
      vm_compute; reflexivity.
Defined.

(** Alice signs in with her password: the check passes, and the session is
    stored with the private key of the first key pair of the pool. *)
Lemma sign_in_checks_password_first_witness :
  exists sess s',
    SignIn "alice" [x70; x77] server = (Ok sess, s') /\
    CheckPasswordWOToken "alice" [x70; x77] (WebService server) = Ok tt /\
    sess_User sess = alice /\
    exists ws, web_sessions (WebService s') !! ("alice", sess_ID sess)
                 = Some (ws, WebSessionTTL) /\
               Priv ws = [x01; x00].
Proof.
  run_Ok Hrun.
  destruct (sign_in_checks_password_first server "alice" [x70; x77] x s' Hrun)
    as (Hcheck & Huser & _ & _ & priv & pub & b1 & pk & Hpool & Hstored & _).
  split; [ exact Hcheck | ].
  assert (web_users (WebService server) !! "alice" = Some alice) as Halice
    by (vm_compute; reflexivity).
  split; [ congruence | ].
  eexists. split; [ exact Hstored | ]. cbn [Priv].
  vm_compute in Hpool. by injection Hpool as <- _ _.
Defined.
